(** * parseroni: composable runtime validators (src/src/parse.ts)

    A shallow embedding of the validator library of [src/src/parse.ts] and
    the properties its specification states about it.

    Layout: the host-language primitives the library relies on ([Js]), the
    library itself ([Parse], one definition per exported function, in the
    order of the source), the relations the specification uses to talk
    about results ([SpecSide]), and then the theorems. *)

From Stdlib Require Import List String Ascii ZArith Bool Lia.
From Stdlib Require Import Decimal DecimalString DecimalNat.
Import ListNotations.

Local Open Scope string_scope.

(* ================================================================== *)
(** ** Host-language primitives *)
(* ================================================================== *)

Module Js.

#[local] Set Warnings "-register-all".

(** The dynamically typed values the validators receive: what decoding a
    JSON document yields, plus [undefined].

    Modelling choices, all of them about the host language and none about
    the library:
    - a number is an integer ([Z]). The numbers of the host that the model
      stands for are the safe integers ([safeInteger], magnitude below
      2^53): on those, printing and [===] are as defined here. Fractions,
      NaN and the infinities cannot be written, and what is said of an
      integer that is not safe is said of the model only; a statement
      that depends on how a number of the input prints or compares
      assumes [representable];
    - a string is a sequence of code units, here [ascii];
    - an object is its list of own enumerable properties in the order
      [for ... in] enumerates them, keys unique. The prototype chain is not
      part of a value: [get] answers for own properties, and says
      [undefined] for every other key, which is what the host says unless
      the key names a member inherited from the prototype ([constructor],
      [toString], [__proto__], ...). No statement below draws a conclusion
      from the read of such a name;
    - an array is the list of its elements, without holes;
    - values are compared by content: object identity is not represented. *)
Inductive value : Type :=
| VUndefined
| VNull
| VBoolean (b : bool)
| VNumber (n : Z)
| VString (s : string)
| VArray (items : list value)
| VObject (props : list (string * value)).

(** Evaluating a host function either returns normally or throws. The
    library has no [try], so an exception thrown by a validator it calls
    leaves through the caller: whether a validator was called is visible
    in the completion. *)
Inductive completion (A : Type) : Type :=
| Normal (a : A)
| Throw (e : value).
Arguments Normal {A} a.
Arguments Throw {A} e.

Definition ret {A : Type} (a : A) : completion A := Normal a.

Definition bind {A B : Type} (m : completion A) (k : A -> completion B)
  : completion B :=
  match m with
  | Normal a => k a
  | Throw e => Throw e
  end.

(** What the host throws when an operation meets a value of the wrong
    kind; the error object itself is not inspected anywhere. *)
Definition typeError : value := VString "TypeError".

(** [Number.isSafeInteger(n)] for an integer. *)
Definition safeInteger (n : Z) : bool :=
  (Z.abs n <=? 9007199254740991)%Z.

(** Every number inside the value is a safe integer. *)
Fixpoint representable (v : value) : bool :=
  match v with
  | VNumber n => safeInteger n
  | VArray items =>
      (fix all (l : list value) : bool :=
         match l with
         | [] => true
         | x :: l' => representable x && all l'
         end) items
  | VObject props =>
      (fix all (l : list (string * value)) : bool :=
         match l with
         | [] => true
         | (_, x) :: l' => representable x && all l'
         end) props
  | _ => true
  end.

(** [typeof value] *)
Definition typeof (v : value) : string :=
  match v with
  | VUndefined => "undefined"
  | VNull => "object"
  | VBoolean _ => "boolean"
  | VNumber _ => "number"
  | VString _ => "string"
  | VArray _ => "object"
  | VObject _ => "object"
  end.

(** [Array.isArray(value)] *)
Definition isArray (v : value) : bool :=
  match v with
  | VArray _ => true
  | _ => false
  end.

(** The condition of [value ? a : b]. *)
Definition truthy (v : value) : bool :=
  match v with
  | VUndefined => false
  | VNull => false
  | VBoolean b => b
  | VNumber n => negb (Z.eqb n 0)
  | VString s => negb (String.eqb s "")
  | VArray _ => true
  | VObject _ => true
  end.

(** [value === null] and [value === undefined] *)
Definition isNull (v : value) : bool :=
  match v with
  | VNull => true
  | _ => false
  end.

Definition isUndefined (v : value) : bool :=
  match v with
  | VUndefined => true
  | _ => false
  end.

(** [value == undefined]: the loose comparison also holds of [null]. *)
Definition looselyUndefined (v : value) : bool :=
  isNull v || isUndefined v.

(** [a === b] where one side is a string, number or boolean literal. On
    numbers this is equality of integers; NaN, the one number that is not
    equal to itself, is not among the modelled numbers. *)
Definition strictEquals (a b : value) : bool :=
  match a, b with
  | VUndefined, VUndefined => true
  | VNull, VNull => true
  | VBoolean x, VBoolean y => Bool.eqb x y
  | VNumber x, VNumber y => Z.eqb x y
  | VString x, VString y => String.eqb x y
  | _, _ => false
  end.

Definition natToString (n : nat) : string :=
  NilZero.string_of_uint (Nat.to_uint n).

Definition numberToString (n : Z) : string :=
  NilZero.string_of_int (Z.to_int n).

Fixpoint join (sep : string) (parts : list string) : string :=
  match parts with
  | [] => ""
  | [p] => p
  | p :: rest => p ++ sep ++ join sep rest
  end.

(** How a property key, a string or a number, prints in a template
    literal. *)
Definition keyToString (key : value) : string :=
  match key with
  | VString s => s
  | VNumber n => numberToString n
  | _ => ""
  end.

(** Own properties as an ordered map. *)
Fixpoint lookup (key : string) (props : list (string * value)) : option value :=
  match props with
  | [] => None
  | (k, x) :: rest => if String.eqb k key then Some x else lookup key rest
  end.

Definition hasOwn (key : string) (props : list (string * value)) : bool :=
  match lookup key props with
  | Some _ => true
  | None => false
  end.

(** What a template literal does with [${value}]. A primitive prints as
    itself. An array prints its elements in order, separated by commas,
    [null] and [undefined] elements as nothing. An object without an own
    [toString] property prints as [[object Object]] through the inherited
    method; with an own [toString] property, which in a modelled value
    is never a function, the conversion finds no method that yields a
    primitive and throws a TypeError, and so does an array that holds
    such an object. *)
Fixpoint toString (v : value) : completion string :=
  match v with
  | VUndefined => Normal "undefined"
  | VNull => Normal "null"
  | VBoolean true => Normal "true"
  | VBoolean false => Normal "false"
  | VNumber n => Normal (numberToString n)
  | VString s => Normal s
  | VArray items =>
      bind
        ((fix each (l : list value) : completion (list string) :=
            match l with
            | [] => Normal []
            | VUndefined :: l' =>
                bind (each l') (fun rest => Normal ("" :: rest))
            | VNull :: l' =>
                bind (each l') (fun rest => Normal ("" :: rest))
            | x :: l' =>
                bind (toString x)
                     (fun text =>
                        bind (each l') (fun rest => Normal (text :: rest)))
            end) items)
        (fun parts => Normal (join "," parts))
  | VObject props =>
      if hasOwn "toString" props then Throw typeError
      else Normal "[object Object]"
  end.

(** [result[key] = x] on an object that has a property [key] or gets
    one: an existing property keeps its place, a new one goes last. *)
Fixpoint define (props : list (string * value)) (key : string) (x : value)
  : list (string * value) :=
  match props with
  | [] => [(key, x)]
  | (k, y) :: rest =>
      if String.eqb k key then (k, x) :: rest else (k, y) :: define rest key x
  end.

(** [result[key] = x] on an object built from [{}] by such assignments.
    The key [__proto__] is special: the assignment goes to the setter
    inherited from [Object.prototype], which never creates an own
    property (it replaces the prototype when [x] is an object or [null]
    and does nothing otherwise), so the own properties stay as they
    are. *)
Definition assign (props : list (string * value)) (key : string) (x : value)
  : list (string * value) :=
  if String.eqb key "__proto__" then props else define props key x.

(** A key that is an array index: the decimal text of a natural number. *)
Definition indexOfKey (key : string) : option nat :=
  match NilZero.uint_of_string key with
  | Some d =>
      let n := Nat.of_uint d in
      if String.eqb (natToString n) key then Some n else None
  | None => None
  end.

Fixpoint codeUnitAt (s : string) (i : nat) : option ascii :=
  match s, i with
  | EmptyString, _ => None
  | String c _, O => Some c
  | String _ s', S i' => codeUnitAt s' i'
  end.

(** [value[key]] for a value that is neither [null] nor [undefined], as
    far as own properties answer it: the own property when there is one,
    [undefined] otherwise (see the note on the prototype chain above). *)
Definition get (v : value) (key : string) : value :=
  match v with
  | VObject props =>
      match lookup key props with
      | Some x => x
      | None => VUndefined
      end
  | VArray items =>
      if String.eqb key "length" then VNumber (Z.of_nat (List.length items))
      else match indexOfKey key with
           | Some i => nth i items VUndefined
           | None => VUndefined
           end
  | VString s =>
      if String.eqb key "length" then VNumber (Z.of_nat (String.length s))
      else match indexOfKey key with
           | Some i =>
               match codeUnitAt s i with
               | Some c => VString (String c EmptyString)
               | None => VUndefined
               end
           | None => VUndefined
           end
  | _ => VUndefined
  end.

(** The keys [for (const key in value)] visits, in order. *)
Definition forIn (v : value) : list string :=
  match v with
  | VObject props => map fst props
  | VArray items => map natToString (seq 0 (List.length items))
  | VString s => map natToString (seq 0 (String.length s))
  | _ => []
  end.

(** [items.concat(more)] with [more] an array literal. *)
Definition concat (items : value) (more : list value) : completion value :=
  match items with
  | VArray xs => ret (VArray (xs ++ more))
  | _ => Throw typeError
  end.

(** [array.reduce(callback, initial)]: the callback receives the
    accumulator, the member and its index, members in index order. *)
Fixpoint reduceFrom {A T : Type} (callback : A -> T -> nat -> completion A)
  (index : nat) (members : list T) (acc : A) : completion A :=
  match members with
  | [] => ret acc
  | member :: rest =>
      bind (callback acc member index)
           (fun acc' => reduceFrom callback (S index) rest acc')
  end.

Definition reduce {A T : Type} (callback : A -> T -> nat -> completion A)
  (members : list T) (initial : A) : completion A :=
  reduceFrom callback 0 members initial.

End Js.

Notation "x <- m ;; k" := (Js.bind m (fun x => k))
  (at level 61, m at next level, right associativity).


(* ================================================================== *)
(** ** The library: src/src/parse.ts *)
(* ================================================================== *)

Module Parse.
Import Js.

(** [Failure<I>], [Success<O>] and [Result<I,O>]. The [type] field of the
    source is the discriminant of the union; [type] below reads it. *)
Record Failure (I : Type) : Type :=
  mkFailure { failure_reason : string; failure_value : I }.
Arguments mkFailure {I} _ _.
Arguments failure_reason {I} _.
Arguments failure_value {I} _.

Record Success (O : Type) : Type :=
  mkSuccess { success_value : O }.
Arguments mkSuccess {O} _.
Arguments success_value {O} _.

Inductive Result (I O : Type) : Type :=
| IsFailure (f : Failure I)
| IsSuccess (s : Success O).
Arguments IsFailure {I O} f.
Arguments IsSuccess {I O} s.

Definition type {I O : Type} (result : Result I O) : string :=
  match result with
  | IsFailure _ => "failure"
  | IsSuccess _ => "success"
  end.

(** [Parser<I,O>]: a host function, so a call may also throw. *)
Definition Parser (I O : Type) : Type := I -> completion (Result I O).

(** The validators below all work on untyped input and output. *)
Definition AnyParser : Type := Parser value value.

Definition success {I O : Type} (value : O) : Result I O :=
  IsSuccess (mkSuccess value).

Definition failure {I O : Type} (value : I) (reason : string) : Result I O :=
  IsFailure (mkFailure reason value).

Definition isSuccess {I O : Type} (result : Result I O) : bool :=
  String.eqb (type result) "success".

Definition isFailure {I O : Type} (result : Result I O) : bool :=
  String.eqb (type result) "failure".

Definition failTypeOf {O : Type} (value : value) : Result Js.value O :=
  failure value ("typeof value is " ++ typeof value).

(** [{...failure, value, reason: `Failed at '${key}': ${failure.reason}`}];
    the key is a property name or an array index. *)
Definition keyedFailure {T : Type} (value : T) (key : Js.value)
  (failure : Failure T) : Failure T :=
  mkFailure ("Failed at '" ++ keyToString key ++ "': "
             ++ failure_reason failure)
            value.

Definition optional (validator : AnyParser) : AnyParser :=
  fun value => if isNull value then ret (success VNull) else validator value.

Definition voidable (validator : AnyParser) : AnyParser :=
  fun value =>
    if isUndefined value then ret (success VUndefined) else validator value.

Definition parseString : AnyParser :=
  fun value =>
    ret (if String.eqb (typeof value) "string" then success value
         else failTypeOf value).

Definition parseNumber : AnyParser :=
  fun value =>
    ret (if String.eqb (typeof value) "number" then success value
         else failTypeOf value).

Definition parseUndefined : AnyParser :=
  fun value =>
    ret (if isUndefined value then success VUndefined else failTypeOf value).

Definition parseBoolean : AnyParser :=
  fun value =>
    ret (if String.eqb (typeof value) "boolean" then success value
         else failTypeOf value).

Definition parseAnyValue : AnyParser :=
  fun value => ret (success value).

Definition parseObject : AnyParser :=
  fun value =>
    ret (if String.eqb (typeof value) "object" && negb (isNull value)
         then success value
         else failTypeOf value).

Definition parseArray : AnyParser :=
  fun value =>
    ret (if isArray value then success value
         else failure value "value is not Array.isArray").

(** [value ? value[key] : undefined], the argument [parseObjectOf] hands
    to the validator of field [key]. *)
Definition field (value : value) (key : string) : Js.value :=
  if truthy value then get value key else VUndefined.

(** The body of the [for (const key in validators)] loop of
    [parseObjectOf], with [result] the record assembled so far. *)
Fixpoint parseObjectOf_loop (validators : list (string * AnyParser))
  (value : value) (result : list (string * Js.value))
  : completion (Result Js.value Js.value) :=
  match validators with
  | [] => ret (success (VObject result))
  | (key, validator) :: rest =>
      validated <- validator (field value key) ;;
      match validated with
      | IsFailure f => ret (IsFailure (keyedFailure value (VString key) f))
      | IsSuccess s =>
          parseObjectOf_loop rest value (assign result key (success_value s))
      end
  end.

(** [validators] lists the fields in the order [for ... in] visits them. *)
Definition parseObjectOf (validators : list (string * AnyParser)) : AnyParser :=
  fun value => parseObjectOf_loop validators value [].

(** The [for (const key in value)] loop of [parseIndexedObjectOf]. *)
Fixpoint parseIndexedObjectOf_loop (parser : AnyParser) (keys : list string)
  (value : value) (result : list (string * Js.value))
  : completion (Result Js.value Js.value) :=
  match keys with
  | [] => ret (success (VObject result))
  | key :: rest =>
      child <- parser (get value key) ;;
      match child with
      | IsFailure f => ret (IsFailure (keyedFailure value (VString key) f))
      | IsSuccess s =>
          parseIndexedObjectOf_loop parser rest value
            (assign result key (success_value s))
      end
  end.

Definition parseIndexedObjectOf (parser : AnyParser) : AnyParser :=
  fun value =>
    if isNull value || looselyUndefined value then
      ret (failure value "value is null or undefined")
    else if negb (String.eqb (typeof value) "object") then
      ret (failTypeOf value)
    else parseIndexedObjectOf_loop parser (forIn value) value [].

(** [isFailure(result) ? next(result) : result] *)
Definition mapFailure {I J A : Type} (result : Result I A)
  (next : Failure I -> completion (Result J A)) : completion (Result J A) :=
  match result with
  | IsFailure f => next f
  | IsSuccess s => ret (IsSuccess s)
  end.

(** [isSuccess(result) ? next(result.value) : result] *)
Definition mapSuccess {I A B : Type} (result : Result I A)
  (next : A -> completion (Result I B)) : completion (Result I B) :=
  match result with
  | IsSuccess s => next (success_value s)
  | IsFailure f => ret (IsFailure f)
  end.

(** [isSuccess(result) ? success(result.value) : failure(result)] *)
Definition mapResult {I A C : Type} (result : Result I A)
  (success : A -> C) (failure : Failure I -> C) : C :=
  match result with
  | IsSuccess s => success (success_value s)
  | IsFailure f => failure f
  end.

(** The arguments are evaluated inside out: the validator first, then
    [mapSuccess], then [mapFailure] with [failure => ({...failure, value})]. *)
Definition mapParser {I A B : Type} (validator : Parser I A)
  (next : A -> completion (Result I B)) : Parser I B :=
  fun value =>
    validated <- validator value ;;
    mapped <- mapSuccess validated next ;;
    mapFailure mapped
      (fun failure => ret (IsFailure (mkFailure (failure_reason failure) value))).

(** The callback [parseArrayOf] hands to [reduce]; [value] is the array
    being validated. *)
Definition parseArrayOf_member (validator : AnyParser) (value : value)
  (result : Result Js.value Js.value) (member : Js.value) (index : nat)
  : completion (Result Js.value Js.value) :=
  mapSuccess result (fun items =>
    validated <- validator member ;;
    mapResult validated
      (fun valid =>
         extended <- concat items [valid] ;;
         ret (success extended))
      (fun failure =>
         ret (IsFailure
                (keyedFailure value (VNumber (Z.of_nat index)) failure)))).

(** [parseArray] only lets arrays through, so the transform always finds
    the [reduce] method; on anything else the call would throw. *)
Definition parseArrayOf (validator : AnyParser) : AnyParser :=
  mapParser parseArray (fun value =>
    match value with
    | VArray members =>
        reduce (parseArrayOf_member validator value) members
               (success (VArray []))
    | _ => Throw typeError
    end).

(** The callback [parseOneOf] hands to [reduce]: the next validator is
    only called while the result so far is a failure. *)
Definition parseOneOf_next (value : value)
  (result : Result Js.value Js.value) (validator : AnyParser) (_ : nat)
  : completion (Result Js.value Js.value) :=
  mapFailure result (fun _ => validator value).

(** [parseOneOf(parser, ...parsers)]. The reason of the synthesized
    failure is a template literal over the input, evaluated only when
    every validator has failed; printing the input may throw. *)
Definition parseOneOf (parser : AnyParser) (parsers : list AnyParser)
  : AnyParser :=
  if Nat.eqb (List.length parsers) 0 then parser
  else fun value =>
    first <- parser value ;;
    reduced <- reduce (parseOneOf_next value) parsers first ;;
    mapFailure reduced
      (fun _ =>
         text <- toString value ;;
         ret (failure value
                ("'" ++ text ++ "' did not match any of "
                 ++ numberToString (Z.of_nat (List.length parsers + 1))
                 ++ " validators"))).

(** [option] is a string, number or boolean literal; the reason is a
    template literal over it, evaluated on a mismatch. *)
Definition parseExactly (option : value) : AnyParser :=
  fun value =>
    if strictEquals value option then ret (success option)
    else text <- toString option ;;
         ret (failure value ("is not " ++ text)).

End Parse.

(* ================================================================== *)
(** ** Notions the specification uses to describe results *)
(* ================================================================== *)

Module SpecSide.
Import Js Parse.

(** A validator fails on an input, and succeeds on it with a given value. *)
Definition rejects (validator : AnyParser) (input : value) : Prop :=
  exists f, validator input = Normal (IsFailure f).

Definition accepts (validator : AnyParser) (input output : value) : Prop :=
  validator input = Normal (success output).

(** The synthesized reason of an alternation of [count] validators, for
    an input that prints as [text]. *)
Definition noMatchReason (text : string) (count : nat) : string :=
  "'" ++ text ++ "' did not match any of "
  ++ numberToString (Z.of_nat count) ++ " validators".

(** The validator of a declared field succeeds on what [parseObjectOf]
    reads for it from the input. *)
Definition fieldAccepts (input : value) (declaration : string * AnyParser)
  (output : value) : Prop :=
  accepts (snd declaration) (field input (fst declaration)) output.

(** The properties that assignments leave on an object built from [{}]:
    all of them but [__proto__], which is never stored. *)
Definition stored (props : list (string * value)) : list (string * value) :=
  filter (fun kv => negb (String.eqb (fst kv) "__proto__")) props.

(** The reason of a failure located at a field or index. *)
Definition failedAt (key reason : string) : string :=
  "Failed at '" ++ key ++ "': " ++ reason.

Definition declared (key : string) (fields : list string) : bool :=
  existsb (String.eqb key) fields.

(** "The input restricted to the declared fields": the record that keeps
    the input's own properties whose key is declared, and nothing else. *)
Definition restrictTo (fields : list string) (input : value) : value :=
  match input with
  | VObject props =>
      VObject (filter (fun kv => declared (fst kv) fields) props)
  | other => other
  end.

(** "Deep-equals", as the assertions of [__tests__/parse_test.ts] compare
    results: same content, objects compared as maps whatever the order of
    their keys, a property holding [undefined] counting as absent. *)
Fixpoint deepEquals (a b : value) : bool :=
  match a, b with
  | VUndefined, VUndefined => true
  | VNull, VNull => true
  | VBoolean x, VBoolean y => Bool.eqb x y
  | VNumber x, VNumber y => Z.eqb x y
  | VString x, VString y => String.eqb x y
  | VArray xs, VArray ys =>
      (fix all2 (l : list value) (r : list value) : bool :=
         match l, r with
         | [], [] => true
         | x :: l', y :: r' => deepEquals x y && all2 l' r'
         | _, _ => false
         end) xs ys
  | VObject ps, VObject qs =>
      (fix left (l : list (string * value)) : bool :=
         match l with
         | [] => true
         | (k, x) :: l' =>
             match lookup k qs with
             | Some y => deepEquals x y
             | None => isUndefined x
             end && left l'
         end) ps
      && forallb (fun kv =>
                    match lookup (fst kv) ps with
                    | Some _ => true
                    | None => isUndefined (snd kv)
                    end) qs
  | _, _ => false
  end.

End SpecSide.

(* ================================================================== *)
(** ** Vocabulary for the behaviour of validators *)
(* ================================================================== *)

Module Behaviour.
Import Js Parse SpecSide.

(** The literals [parseExactly] is typed to take, as far as the model
    has them: strings, booleans and safe integers. *)
Definition isLiteral (v : value) : bool :=
  match v with
  | VBoolean _ => true
  | VNumber n => safeInteger n
  | VString _ => true
  | _ => false
  end.

(** Every failure the validator returns is about the input it was given. *)
Definition reportsInput (validator : AnyParser) : Prop :=
  forall input f,
    validator input = Normal (IsFailure f) -> failure_value f = input.

(** The validator returns a result on every input. *)
Definition neverThrows (validator : AnyParser) : Prop :=
  forall input, exists result, validator input = Normal result.

(** What the validator accepts, it accepts again and leaves unchanged. *)
Definition stable (validator : AnyParser) : Prop :=
  forall input output,
    accepts validator input output -> accepts validator output output.

(** A completion without the value of its failure: what is left is the
    kind of outcome, the value of a success and the reason of a failure. *)
Definition verdict (c : completion (Result value value))
  : completion (Result unit value) :=
  match c with
  | Normal (IsFailure f) => Normal (IsFailure (mkFailure (failure_reason f) tt))
  | Normal (IsSuccess s) => Normal (IsSuccess s)
  | Throw e => Throw e
  end.

(** A chain of one-field records around a validator, outermost key first,
    and the value such a chain reads from an input. *)
Fixpoint nested (keys : list string) (leaf : AnyParser) : AnyParser :=
  match keys with
  | [] => leaf
  | key :: rest => parseObjectOf [(key, nested rest leaf)]
  end.

Fixpoint dig (input : value) (keys : list string) : value :=
  match keys with
  | [] => input
  | key :: rest => dig (field input key) rest
  end.

End Behaviour.

(* ================================================================== *)
(** ** The assertions of __tests__/parse_test.ts, replayed on the model *)
(* ================================================================== *)

Import Js Parse SpecSide.

Module Tests.

Example isString_fails :
  parseString (VNumber 1)
  = Normal (failure (VNumber 1) "typeof value is number").
Proof. reflexivity. Qed.

Example arrayOf_succeeds :
  parseArrayOf parseNumber (VArray [VNumber 1; VNumber 2; VNumber 3])
  = Normal (success (VArray [VNumber 1; VNumber 2; VNumber 3])).
Proof. reflexivity. Qed.

Example arrayOf_fails :
  parseArrayOf parseNumber (VArray [VNumber 1; VString "2"; VNumber 3])
  = Normal (failure (VArray [VNumber 1; VString "2"; VNumber 3])
                    "Failed at '1': typeof value is string").
Proof. reflexivity. Qed.

Example optional_fails :
  parseArrayOf (optional parseNumber)
    (VArray [VNumber 1; VBoolean false; VNumber 3])
  = Normal (failure (VArray [VNumber 1; VBoolean false; VNumber 3])
                    "Failed at '1': typeof value is boolean").
Proof. reflexivity. Qed.

Example objectOf_allows_undefined_keys :
  let parser := parseObjectOf [("name", parseString);
                               ("age", parseOneOf parseUndefined [parseString])] in
  parser (VObject [])
  = Normal (failure (VObject []) "Failed at 'name': typeof value is undefined")
  /\ parser (VObject [("name", VString "Hello"); ("age", VNumber 10)])
     = Normal (failure (VObject [("name", VString "Hello"); ("age", VNumber 10)])
                "Failed at 'age': '10' did not match any of 2 validators")
  /\ exists result,
       parser (VObject [("name", VString "Hello")]) = Normal (success result)
       /\ deepEquals result (VObject [("name", VString "Hello")]) = true.
Proof.
  repeat split.
  eexists. split; [reflexivity | vm_compute; reflexivity].
Qed.

Example objectOf_nests :
  parseObjectOf [("name", parseString);
                 ("child", parseObjectOf [("id", parseNumber)])]
    (VObject [("name", VString "Invalid");
              ("child", VObject [("id", VString "not-number")])])
  = Normal (failure
              (VObject [("name", VString "Invalid");
                        ("child", VObject [("id", VString "not-number")])])
              "Failed at 'child': Failed at 'id': typeof value is string").
Proof. reflexivity. Qed.

Example indexedObjectOf_succeeds :
  parseIndexedObjectOf
    (parseOneOf (parseExactly (VString "one")) [parseExactly (VNumber 1)])
    (VObject [("a", VString "one"); ("b", VNumber 1)])
  = Normal (success (VObject [("a", VString "one"); ("b", VNumber 1)])).
Proof. reflexivity. Qed.

Example oneOf_validates_multiple_validators :
  let year := parseOneOf parseNumber [parseString; parseBoolean] in
  year (VNumber 2015) = Normal (success (VNumber 2015))
  /\ year (VString "2015") = Normal (success (VString "2015"))
  /\ year (VBoolean true) = Normal (success (VBoolean true))
  /\ year VNull
     = Normal (failure VNull "'null' did not match any of 3 validators").
Proof. repeat split. Qed.

Example arrayOf_oneOf :
  let validator := parseArrayOf (parseOneOf parseNumber [parseBoolean]) in
  validator (VArray []) = Normal (success (VArray []))
  /\ validator (VArray [VNull; VBoolean true])
     = Normal (failure (VArray [VNull; VBoolean true])
                "Failed at '0': 'null' did not match any of 2 validators").
Proof. repeat split. Qed.

End Tests.

(* ================================================================== *)
(** ** Result model *)
(* ================================================================== *)

Section ResultModel.
Context {I O : Type}.

Lemma isSuccess_iff (result : Result I O) :
  isSuccess result = true <-> exists s, result = IsSuccess s.
Proof.
  destruct result as [f | s]; cbn; split.
  - discriminate.
  - intros [s Hs]. discriminate.
  - intros _. now exists s.
  - reflexivity.
Qed.

Lemma isFailure_iff (result : Result I O) :
  isFailure result = true <-> exists f, result = IsFailure f.
Proof.
  destruct result as [f | s]; cbn; split.
  - intros _. now exists f.
  - reflexivity.
  - discriminate.
  - intros [f Hf]. discriminate.
Qed.

(** C10. For every [Result], exactly one of [isSuccess] and [isFailure]
    holds: at least one does (exhaustive), never both (exclusive), and
    each holds exactly of its own variant of the union. *)
Theorem isSuccess_isFailure_exactly_one (result : Result I O) :
  (isSuccess result = true \/ isFailure result = true)
  /\ ~ (isSuccess result = true /\ isFailure result = true)
  /\ isFailure result = negb (isSuccess result)
  /\ (isSuccess result = true <-> exists s, result = IsSuccess s)
  /\ (isFailure result = true <-> exists f, result = IsFailure f).
Proof.
  split; [| split; [| split; [| split]]].
  - destruct result; cbn; auto.
  - destruct result; cbn; intros [H1 H2]; discriminate.
  - destruct result; reflexivity.
  - apply isSuccess_iff.
  - apply isFailure_iff.
Qed.

End ResultModel.

(* ================================================================== *)
(** ** Scalar validators and the absence-tolerant wrappers *)
(* ================================================================== *)

Lemma eqb_false_of_neq (a b : string) : a <> b -> String.eqb a b = false.
Proof. intro H. now apply String.eqb_neq. Qed.

(** C4, as the code has it. On an input of another runtime category the
    string, number, boolean, undefined and generic-object validators fail
    with reason ["typeof value is " ++ typeof input]; the generic-sequence
    validator fails with the fixed reason ["value is not Array.isArray"];
    the unconstrained validator never fails. Every failure carries the
    original input as its value. *)
Theorem scalar_failure_reasons (input : value) :
  (typeof input <> "string" ->
     parseString input
     = Normal (failure input ("typeof value is " ++ typeof input)))
  /\ (typeof input <> "number" ->
        parseNumber input
        = Normal (failure input ("typeof value is " ++ typeof input)))
  /\ (typeof input <> "boolean" ->
        parseBoolean input
        = Normal (failure input ("typeof value is " ++ typeof input)))
  /\ (input <> VUndefined ->
        parseUndefined input
        = Normal (failure input ("typeof value is " ++ typeof input)))
  /\ (typeof input <> "object" \/ input = VNull ->
        parseObject input
        = Normal (failure input ("typeof value is " ++ typeof input)))
  /\ (isArray input = false ->
        parseArray input
        = Normal (failure input "value is not Array.isArray"))
  /\ parseAnyValue input = Normal (success input).
Proof.
  repeat split.
  - intro H. unfold parseString. now rewrite (eqb_false_of_neq _ _ H).
  - intro H. unfold parseNumber. now rewrite (eqb_false_of_neq _ _ H).
  - intro H. unfold parseBoolean. now rewrite (eqb_false_of_neq _ _ H).
  - intro H. destruct input; try reflexivity. now elim H.
  - intros [H | ->]; [| reflexivity].
    unfold parseObject. now rewrite (eqb_false_of_neq _ _ H).
  - intro H. unfold parseArray. now rewrite H.
Qed.

Lemma scalar_failure_reasons_witness :
  parseString (VNumber 1)
  = Normal (failure (VNumber 1) "typeof value is number")
  /\ parseNumber (VString "2")
     = Normal (failure (VString "2") "typeof value is string")
  /\ parseBoolean VNull = Normal (failure VNull "typeof value is object")
  /\ parseUndefined VNull = Normal (failure VNull "typeof value is object")
  /\ parseObject VNull = Normal (failure VNull "typeof value is object")
  /\ parseArray (VObject [])
     = Normal (failure (VObject []) "value is not Array.isArray").
Proof.
  split; [| split; [| split; [| split; [| split]]]].
  - apply (proj1 (scalar_failure_reasons (VNumber 1))). discriminate.
  - apply (proj1 (proj2 (scalar_failure_reasons (VString "2")))). discriminate.
  - apply (proj1 (proj2 (proj2 (scalar_failure_reasons VNull)))). discriminate.
  - apply (proj1 (proj2 (proj2 (proj2 (scalar_failure_reasons VNull))))).
    discriminate.
  - apply (proj1 (proj2 (proj2 (proj2 (proj2 (scalar_failure_reasons VNull)))))).
    right. reflexivity.
  - apply (proj1 (proj2 (proj2 (proj2 (proj2 (proj2
             (scalar_failure_reasons (VObject [])))))))).
    reflexivity.
Defined.

(** C4 as stated fails for the generic-sequence validator: a number is
    not a sequence, and the reason reported is not the type-tag one. *)
Lemma parseArray_reason_counterexample :
  isArray (VNumber 1) = false
  /\ parseArray (VNumber 1)
     <> Normal (failure (VNumber 1)
                  ("typeof value is " ++ typeof (VNumber 1))).
Proof. split; [reflexivity | discriminate]. Qed.

(** C7. [optional v] answers [null] itself and hands every other input,
    [undefined] included, to [v]; [voidable v] answers [undefined] itself
    and hands every other input, [null] included, to [v]. The wrapped
    validator is arbitrary, in particular it may throw on [null] or on
    [undefined]: the wrappers' own answers do not depend on it, so it is
    not called there. *)
Theorem optional_voidable_delegation (v : AnyParser) :
  optional v VNull = Normal (success VNull)
  /\ (forall input, input <> VNull -> optional v input = v input)
  /\ optional v VUndefined = v VUndefined
  /\ voidable v VUndefined = Normal (success VUndefined)
  /\ (forall input, input <> VUndefined -> voidable v input = v input)
  /\ voidable v VNull = v VNull.
Proof.
  repeat split.
  - intros input H. destruct input; try reflexivity. now elim H.
  - intros input H. destruct input; try reflexivity. now elim H.
Qed.

Lemma optional_voidable_delegation_witness :
  optional (fun _ => Throw typeError) VNull = Normal (success VNull)
  /\ optional parseNumber (VString "a") = parseNumber (VString "a")
  /\ voidable (fun _ => Throw typeError) VUndefined
     = Normal (success VUndefined)
  /\ voidable parseNumber (VNumber 1) = parseNumber (VNumber 1).
Proof.
  split; [| split; [| split]].
  - apply (proj1 (optional_voidable_delegation (fun _ => Throw typeError))).
  - apply (proj1 (proj2 (optional_voidable_delegation parseNumber))).
    discriminate.
  - apply (proj1 (proj2 (proj2 (proj2
             (optional_voidable_delegation (fun _ => Throw typeError)))))).
  - apply (proj1 (proj2 (proj2 (proj2 (proj2
             (optional_voidable_delegation parseNumber)))))).
    discriminate.
Defined.

(* ================================================================== *)
(** ** The transformation combinator *)
(* ================================================================== *)

Section MapParser.
Context {I A B : Type}.
Variable child : Parser I A.
Variable transform : A -> completion (Result I B).

(** C3, as the code has it. [mapParser child transform] keeps the reason
    of a failure of the child and reports the outer input as its value,
    whatever the transform is (it is not called); when the child succeeds
    the transform is applied to the child's value, a success of the
    transform is returned unchanged, and a failure of the transform keeps
    its reason while its value too becomes the outer input. *)
Theorem mapParser_rewraps_every_failure (input : I) :
  (forall f, child input = Normal (IsFailure f) ->
     mapParser child transform input
     = Normal (failure input (failure_reason f)))
  /\ (forall a s, child input = Normal (success a) ->
        transform a = Normal (IsSuccess s) ->
        mapParser child transform input = Normal (IsSuccess s))
  /\ (forall a f, child input = Normal (success a) ->
        transform a = Normal (IsFailure f) ->
        mapParser child transform input
        = Normal (failure input (failure_reason f))).
Proof.
  unfold mapParser. repeat split.
  - intros f ->. reflexivity.
  - intros a s -> Ht. cbn. rewrite Ht. reflexivity.
  - intros a f -> Ht. cbn. rewrite Ht. reflexivity.
Qed.

End MapParser.

Lemma mapParser_rewraps_every_failure_witness :
  mapParser parseNumber
    (fun _ => Throw typeError : completion (Result value value)) (VString "x")
  = Normal (failure (VString "x") "typeof value is string")
  /\ mapParser parseNumber (fun n => ret (success (VArray [n]))) (VNumber 7)
     = Normal (success (VArray [VNumber 7]))
  /\ mapParser parseAnyValue
       (fun _ => ret (failure (VString "other") "nope")
                 : completion (Result value value)) (VNumber 5)
     = Normal (failure (VNumber 5) "nope").
Proof.
  split; [| split].
  - apply (proj1 (mapParser_rewraps_every_failure
                    parseNumber
                    (fun _ => Throw typeError : completion (Result value value))
                    (VString "x"))
                 (mkFailure "typeof value is string" (VString "x"))).
    reflexivity.
  - apply (proj1 (proj2 (mapParser_rewraps_every_failure
                    parseNumber (fun n => ret (success (VArray [n])))
                    (VNumber 7)))
                 (VNumber 7) (mkSuccess (VArray [VNumber 7])));
      reflexivity.
  - apply (proj2 (proj2 (mapParser_rewraps_every_failure
                    parseAnyValue
                    (fun _ => ret (failure (VString "other") "nope")
                              : completion (Result value value))
                    (VNumber 5)))
                 (VNumber 5) (mkFailure "nope" (VString "other")));
      reflexivity.
Defined.

(** C3 as stated fails: the child accepts 5, the transform reports a
    failure about ["other"], and what comes back is not that failure but
    one about the outer input 5. *)
Lemma mapParser_transform_failure_counterexample :
  let transform := fun _ : value =>
                     ret (failure (VString "other") "nope")
                     : completion (Result value value) in
  parseAnyValue (VNumber 5) = Normal (success (VNumber 5))
  /\ transform (VNumber 5) = Normal (failure (VString "other") "nope")
  /\ mapParser parseAnyValue transform (VNumber 5)
     = Normal (failure (VNumber 5) "nope")
  /\ mapParser parseAnyValue transform (VNumber 5) <> transform (VNumber 5).
Proof. repeat split. discriminate. Qed.

(* ================================================================== *)
(** ** Alternation *)
(* ================================================================== *)

Section OneOf.
Variable input : value.

Lemma parseOneOf_next_keeps_success (parsers : list AnyParser) :
  forall index s,
    reduceFrom (parseOneOf_next input) index parsers (IsSuccess s)
    = Normal (IsSuccess s).
Proof.
  induction parsers as [| p rest IH]; intros index s; cbn.
  - reflexivity.
  - apply IH.
Qed.

Lemma parseOneOf_next_all_reject (parsers : list AnyParser) :
  Forall (fun p => rejects p input) parsers ->
  forall index f0, exists f,
    reduceFrom (parseOneOf_next input) index parsers (IsFailure f0)
    = Normal (IsFailure f).
Proof.
  induction 1 as [| p rest [g Hp] _ IH]; intros index f0; cbn.
  - now exists f0.
  - rewrite Hp. cbn. apply IH.
Qed.

Lemma parseOneOf_next_first_success (before : list AnyParser) :
  Forall (fun p => rejects p input) before ->
  forall chosen after s index f0,
    chosen input = Normal (IsSuccess s) ->
    reduceFrom (parseOneOf_next input) index (before ++ chosen :: after)
               (IsFailure f0)
    = Normal (IsSuccess s).
Proof.
  induction 1 as [| p rest [g Hp] _ IH]; intros chosen after s index f0 Hc; cbn.
  - rewrite Hc. cbn. apply parseOneOf_next_keeps_success.
  - rewrite Hp. cbn. now apply IH.
Qed.

(** C5, as the code has it. The validators are tried in the order given
    and the first success is the answer, whatever the validators after it
    are (they are not called: the answer is the same when they throw).
    When all of two or more validators fail and the template literal
    prints the input as [text] (the numbers in the input being safe
    integers), the answer is one failure about the original input with
    reason ['<text>' did not match any of <N> validators], N counting
    all the validators, and no child reason in it. An alternation of a
    single validator is that validator: its own failure comes back
    unchanged. *)
Theorem parseOneOf_first_success_or_count (parser : AnyParser)
  (parsers : list AnyParser) :
  (forall before chosen after s,
     parser :: parsers = (before ++ chosen :: after)%list ->
     Forall (fun p => rejects p input) before ->
     chosen input = Normal (IsSuccess s) ->
     parseOneOf parser parsers input = Normal (IsSuccess s))
  /\ (forall text,
        parsers <> [] ->
        Forall (fun p => rejects p input) (parser :: parsers) ->
        representable input = true ->
        toString input = Normal text ->
        parseOneOf parser parsers input
        = Normal (failure input
                    (noMatchReason text (List.length (parser :: parsers)))))
  /\ (parsers = [] -> parseOneOf parser parsers input = parser input).
Proof.
  split; [| split].
  - intros before chosen after s Hsplit Hbefore Hchosen.
    destruct before as [| b before'].
    + cbn in Hsplit. injection Hsplit as <- <-.
      unfold parseOneOf. destruct parsers as [| q rest]; cbn.
      * exact Hchosen.
      * rewrite Hchosen. cbn.
        unfold reduce. cbn.
        rewrite parseOneOf_next_keeps_success. reflexivity.
    + cbn in Hsplit. injection Hsplit as <- ->.
      inversion Hbefore as [| ? ? [g Hb] Hrest]; subst.
      assert (Hlen : Nat.eqb (List.length (before' ++ chosen :: after)%list) 0
                     = false).
      { rewrite List.length_app. cbn. now rewrite Nat.add_succ_r. }
      unfold parseOneOf. rewrite Hlen, Hb. cbn [bind].
      unfold reduce.
      match goal with
      | |- context [reduceFrom ?cb ?i ?l ?a] =>
          replace (reduceFrom cb i l a) with
            (Normal (IsSuccess s) : completion (Result value value))
            by (symmetry; now apply parseOneOf_next_first_success)
      end.
      reflexivity.
  - intros text Hne Hall _ Htext.
    inversion Hall as [| ? ? [g Hp] Hrest]; subst.
    unfold parseOneOf. destruct parsers as [| q rest]; [now elim Hne |].
    cbn [List.length Nat.eqb]. rewrite Hp. cbn [bind].
    destruct (parseOneOf_next_all_reject (q :: rest) Hrest 0 g) as [f Hf].
    unfold reduce. rewrite Hf. cbn [bind mapFailure]. rewrite Htext.
    cbn [bind].
    unfold noMatchReason, ret, failure. cbn [List.length].
    now rewrite Nat.add_1_r.
  - intros ->. reflexivity.
Qed.

End OneOf.

(** A validator that is reached is called: if it throws, so does the
    alternation. *)
Lemma parseOneOf_propagates_throw (input : value) (parser thrower : AnyParser)
  (after : list AnyParser) (e : value) :
  rejects parser input ->
  thrower input = Throw e ->
  parseOneOf parser (thrower :: after) input = Throw e.
Proof.
  intros [f Hf] Ht. unfold parseOneOf, reduce. cbn.
  rewrite Hf. cbn. rewrite Ht. reflexivity.
Qed.

Lemma parseOneOf_first_success_or_count_witness :
  parseOneOf parseNumber [parseString; fun _ => Throw typeError]
    (VString "2015")
  = Normal (success (VString "2015"))
  /\ parseOneOf parseNumber [parseString; parseBoolean] VNull
     = Normal (failure VNull "'null' did not match any of 3 validators")
  /\ parseOneOf parseString [] (VNumber 1) = parseString (VNumber 1).
Proof.
  split; [| split].
  - apply (proj1 (parseOneOf_first_success_or_count (VString "2015")
                    parseNumber [parseString; fun _ => Throw typeError])
                 [parseNumber] parseString [fun _ => Throw typeError]
                 (mkSuccess (VString "2015"))).
    + reflexivity.
    + constructor; [| constructor].
      exists (mkFailure "typeof value is string" (VString "2015")).
      reflexivity.
    + reflexivity.
  - apply (proj1 (proj2 (parseOneOf_first_success_or_count VNull
                    parseNumber [parseString; parseBoolean])) "null").
    + discriminate.
    + repeat constructor;
        exists (mkFailure "typeof value is object" VNull); reflexivity.
    + reflexivity.
    + reflexivity.
  - apply (proj2 (proj2 (parseOneOf_first_success_or_count (VNumber 1)
                    parseString []))).
    reflexivity.
Defined.

(** C5 as stated fails for a list of one validator: the validator fails,
    and the failure that comes back is its own, not the synthesized one
    (the input, the number 1, prints as ["1"]). *)
Lemma parseOneOf_single_counterexample :
  toString (VNumber 1) = Normal "1"
  /\ rejects parseString (VNumber 1)
  /\ parseOneOf parseString [] (VNumber 1)
     = Normal (failure (VNumber 1) "typeof value is number")
  /\ parseOneOf parseString [] (VNumber 1)
     <> Normal (failure (VNumber 1) (noMatchReason "1" 1)).
Proof.
  split; [| split; [| split]].
  - reflexivity.
  - exists (mkFailure "typeof value is number" (VNumber 1)). reflexivity.
  - reflexivity.
  - discriminate.
Qed.

(* ================================================================== *)
(** ** Homogeneous sequences *)
(* ================================================================== *)

Section ArrayOf.
Variable validator : AnyParser.
Variable whole : value.

Lemma parseArrayOf_member_keeps_failure (members : list value) :
  forall index f,
    reduceFrom (parseArrayOf_member validator whole) index members
               (IsFailure f)
    = Normal (IsFailure f).
Proof.
  induction members as [| m rest IH]; intros index f; cbn.
  - reflexivity.
  - apply IH.
Qed.

Lemma parseArrayOf_member_all_accept (members outs : list value) :
  Forall2 (accepts validator) members outs ->
  forall index acc,
    reduceFrom (parseArrayOf_member validator whole) index members
               (success (VArray acc))
    = Normal (success (VArray (acc ++ outs)%list)).
Proof.
  induction 1 as [| m o members' outs' Hm _ IH]; intros index acc; cbn.
  - now rewrite app_nil_r.
  - rewrite Hm. cbn. rewrite IH. now rewrite <- app_assoc.
Qed.

Lemma parseArrayOf_member_first_failure (before outs : list value) :
  Forall2 (accepts validator) before outs ->
  forall member after f index acc,
    validator member = Normal (IsFailure f) ->
    reduceFrom (parseArrayOf_member validator whole) index
               (before ++ member :: after)%list (success (VArray acc))
    = Normal (IsFailure
                (keyedFailure whole
                   (VNumber (Z.of_nat (index + List.length before))) f)).
Proof.
  induction 1 as [| m o before' outs' Hm _ IH];
    intros member after f index acc Hf; cbn.
  - rewrite Hf. cbn. rewrite parseArrayOf_member_keeps_failure.
    now rewrite Nat.add_0_r.
  - rewrite Hm. cbn. rewrite (IH member after f (S index) _ Hf).
    now rewrite Nat.add_succ_r.
Qed.

Lemma parseArrayOf_member_propagates_throw (before outs : list value) :
  Forall2 (accepts validator) before outs ->
  forall member after e index acc,
    validator member = Throw e ->
    reduceFrom (parseArrayOf_member validator whole) index
               (before ++ member :: after)%list (success (VArray acc))
    = Throw e.
Proof.
  induction 1 as [| m o before' outs' Hm _ IH];
    intros member after e index acc He; cbn.
  - rewrite He. reflexivity.
  - rewrite Hm. cbn. now apply IH.
Qed.

End ArrayOf.

(** C2. [parseArrayOf validator] fails at once on an input that is not a
    sequence, with the original input as value and without calling the
    validator. On a sequence it validates the members in index order and
    stops at the first member the validator rejects (nothing is assumed
    of the validator on the members after it), reporting
    [Failed at '<index>': <child reason>] with the whole sequence as
    value. When every member is accepted the result is the sequence of
    the validated values in the original order; the empty sequence gives
    the empty sequence. *)
Theorem parseArrayOf_members_in_order (validator : AnyParser) :
  (forall input, isArray input = false ->
     parseArrayOf validator input
     = Normal (failure input "value is not Array.isArray"))
  /\ (forall before member after outs f,
        Forall2 (accepts validator) before outs ->
        validator member = Normal (IsFailure f) ->
        parseArrayOf validator (VArray (before ++ member :: after)%list)
        = Normal (failure (VArray (before ++ member :: after)%list)
                    (failedAt (numberToString (Z.of_nat (List.length before)))
                              (failure_reason f))))
  /\ (forall members outs,
        Forall2 (accepts validator) members outs ->
        parseArrayOf validator (VArray members)
        = Normal (success (VArray outs)))
  /\ parseArrayOf validator (VArray []) = Normal (success (VArray [])).
Proof.
  split; [| split; [| split]].
  - intros input Hna. unfold parseArrayOf, mapParser, parseArray.
    rewrite Hna. reflexivity.
  - intros before member after outs f Hbefore Hf.
    unfold parseArrayOf, mapParser, parseArray. cbn.
    unfold reduce.
    rewrite (parseArrayOf_member_first_failure validator _ before outs Hbefore
               member after f 0 [] Hf).
    reflexivity.
  - intros members outs Hall.
    unfold parseArrayOf, mapParser, parseArray. cbn.
    unfold reduce.
    rewrite (parseArrayOf_member_all_accept validator _ members outs Hall 0 []).
    reflexivity.
  - reflexivity.
Qed.

Lemma parseArrayOf_members_in_order_witness :
  parseArrayOf (fun _ => Throw typeError) (VString "abc")
  = Normal (failure (VString "abc") "value is not Array.isArray")
  /\ parseArrayOf parseNumber (VArray [VNumber 1; VString "2"; VNumber 3])
     = Normal (failure (VArray [VNumber 1; VString "2"; VNumber 3])
                 "Failed at '1': typeof value is string")
  /\ parseArrayOf (optional parseNumber) (VArray [VNumber 1; VNull])
     = Normal (success (VArray [VNumber 1; VNull])).
Proof.
  split; [| split].
  - apply (proj1 (parseArrayOf_members_in_order (fun _ => Throw typeError))).
    reflexivity.
  - apply (proj1 (proj2 (parseArrayOf_members_in_order parseNumber))
                 [VNumber 1] (VString "2") [VNumber 3] [VNumber 1]
                 (mkFailure "typeof value is string" (VString "2"))).
    + repeat constructor.
    + reflexivity.
  - apply (proj1 (proj2 (proj2
             (parseArrayOf_members_in_order (optional parseNumber))))).
    repeat constructor.
Defined.

(* ================================================================== *)
(** ** Records as ordered maps *)
(* ================================================================== *)

Lemma define_fresh (props : list (string * value)) (key : string) (x : value) :
  ~ In key (map fst props) -> define props key x = (props ++ [(key, x)])%list.
Proof.
  induction props as [| [k y] rest IH]; cbn; intro Hfresh.
  - reflexivity.
  - destruct (String.eqb_spec k key) as [-> | Hne].
    + elim Hfresh. now left.
    + rewrite IH; [reflexivity |]. intro Hin. apply Hfresh. now right.
Qed.

Lemma assign_fresh (props : list (string * value)) (key : string) (x : value) :
  key <> "__proto__" ->
  ~ In key (map fst props) -> assign props key x = (props ++ [(key, x)])%list.
Proof.
  intros Hkey Hfresh. unfold assign.
  rewrite (proj2 (String.eqb_neq key "__proto__") Hkey).
  now apply define_fresh.
Qed.

Lemma assign_proto (props : list (string * value)) (x : value) :
  assign props "__proto__" x = props.
Proof. reflexivity. Qed.

Lemma stored_without_proto (keys : list string) :
  ~ In "__proto__" keys ->
  forall outs, stored (combine keys outs) = combine keys outs.
Proof.
  induction keys as [| k ks IH]; intros Hno outs; cbn.
  - reflexivity.
  - destruct outs as [| o os]; [reflexivity |]. cbn.
    destruct (String.eqb_spec k "__proto__") as [-> | _].
    + elim Hno. now left.
    + cbn. f_equal. apply IH. intro Hin. apply Hno. now right.
Qed.

Lemma lookup_absent (keys : list string) :
  forall (outs : list value) (key : string),
    ~ In key keys -> lookup key (combine keys outs) = None.
Proof.
  induction keys as [| k ks IH]; intros outs key Hout; cbn.
  - reflexivity.
  - destruct outs as [| o os]; [reflexivity |]. cbn.
    destruct (String.eqb_spec k key) as [-> | Hne].
    + elim Hout. now left.
    + apply IH. intro Hin. apply Hout. now right.
Qed.

Lemma Forall2_weaken_In {A B : Type} (P Q : A -> B -> Prop) (l : list A)
  (l' : list B) :
  Forall2 P l l' ->
  (forall a b, In a l -> P a b -> Q a b) ->
  Forall2 Q l l'.
Proof.
  induction 1 as [| a b l l' Hab _ IH]; intro Himp; constructor.
  - apply Himp; [now left | exact Hab].
  - apply IH. intros a' b' Hin. apply Himp. now right.
Qed.

Lemma lookup_present (keys : list string) (outs : list value) :
  NoDup keys ->
  List.length keys = List.length outs ->
  Forall2 (fun key output => lookup key (combine keys outs) = Some output)
          keys outs.
Proof.
  intro Hnd. revert outs.
  induction Hnd as [| k ks Hk _ IH]; intros [| o os] Hlen;
    try discriminate Hlen; cbn.
  - constructor.
  - constructor.
    + now rewrite String.eqb_refl.
    + apply (Forall2_weaken_In
               (fun key output => lookup key (combine ks os) = Some output)).
      * apply IH. now injection Hlen.
      * intros key output Hin Hl.
        destruct (String.eqb_spec k key) as [-> | _]; [now elim Hk | exact Hl].
Qed.


(* ================================================================== *)
(** ** Fixed-shape records *)
(* ================================================================== *)

Section ObjectOf.
Variable input : value.

Lemma parseObjectOf_loop_first_failure (before : list (string * AnyParser))
  (outs : list value) :
  Forall2 (fieldAccepts input) before outs ->
  forall key validator after f result,
    validator (field input key) = Normal (IsFailure f) ->
    parseObjectOf_loop (before ++ (key, validator) :: after)%list input result
    = Normal (IsFailure (keyedFailure input (VString key) f)).
Proof.
  induction 1 as [| [k p] o before' outs' Hp _ IH];
    intros key validator after f result Hf; cbn.
  - rewrite Hf. reflexivity.
  - unfold fieldAccepts, accepts in Hp. cbn in Hp. rewrite Hp. cbn.
    now apply IH.
Qed.

Lemma parseObjectOf_loop_all_accept_stored
  (validators : list (string * AnyParser)) (outs : list value) :
  Forall2 (fieldAccepts input) validators outs ->
  forall result,
    NoDup (map fst result ++ map fst validators)%list ->
    parseObjectOf_loop validators input result
    = Normal (success
                (VObject
                   (result ++ stored (combine (map fst validators) outs))%list)).
Proof.
  induction 1 as [| [k p] o validators' outs' Hp _ IH]; intros result Hnd; cbn.
  - now rewrite app_nil_r.
  - unfold fieldAccepts, accepts in Hp. cbn in Hp. rewrite Hp. cbn.
    cbn in Hnd.
    destruct (String.eqb_spec k "__proto__") as [-> | Hkey].
    + rewrite assign_proto. apply IH. now apply NoDup_remove_1 in Hnd.
    + rewrite assign_fresh.
      * rewrite IH.
        -- cbn. now rewrite <- app_assoc.
        -- rewrite map_app, <- app_assoc. exact Hnd.
      * exact Hkey.
      * apply NoDup_remove_2 in Hnd. intro Hin. apply Hnd.
        apply in_or_app. now left.
Qed.

Lemma parseObjectOf_loop_all_accept (validators : list (string * AnyParser))
  (outs : list value) :
  Forall2 (fieldAccepts input) validators outs ->
  ~ In "__proto__" (map fst validators) ->
  forall result,
    NoDup (map fst result ++ map fst validators)%list ->
    parseObjectOf_loop validators input result
    = Normal (success
                (VObject (result ++ combine (map fst validators) outs)%list)).
Proof.
  intros Hall Hno result Hnd.
  rewrite (parseObjectOf_loop_all_accept_stored validators outs Hall result Hnd).
  now rewrite (stored_without_proto _ Hno).
Qed.

Lemma parseObjectOf_loop_succeeds (validators : list (string * AnyParser)) :
  Forall (fun declaration => exists output,
            fieldAccepts input declaration output) validators ->
  forall result, exists record,
    parseObjectOf_loop validators input result
    = Normal (success (VObject record)).
Proof.
  induction 1 as [| [k p] validators' [o Hp] _ IH]; intros result; cbn.
  - now exists result.
  - unfold fieldAccepts, accepts in Hp. cbn in Hp. rewrite Hp. cbn.
    apply IH.
Qed.

Lemma parseObjectOf_loop_failure_origin
  (validators : list (string * AnyParser)) :
  forall result f,
    parseObjectOf_loop validators input result = Normal (IsFailure f) ->
    exists key validator g,
      In (key, validator) validators
      /\ validator (field input key) = Normal (IsFailure g)
      /\ f = keyedFailure input (VString key) g.
Proof.
  induction validators as [| [k p] rest IH]; intros result f; cbn.
  - discriminate.
  - destruct (p (field input k)) as [[g | s] | e] eqn:Hp; cbn.
    + intro H. injection H as <-.
      exists k, p, g. repeat split; [now left | exact Hp].
    + intro H. destruct (IH _ _ H) as (key & validator & g & Hin & Hv & Hf).
      exists key, validator, g. repeat split; [now right | exact Hv | exact Hf].
    + discriminate.
Qed.

(** A field that is reached has its validator called: if it throws, so
    does the record validator. *)
Lemma parseObjectOf_loop_propagates_throw (before : list (string * AnyParser))
  (outs : list value) :
  Forall2 (fieldAccepts input) before outs ->
  forall key validator after e result,
    validator (field input key) = Throw e ->
    parseObjectOf_loop (before ++ (key, validator) :: after)%list input result
    = Throw e.
Proof.
  induction 1 as [| [k p] o before' outs' Hp _ IH];
    intros key validator after e result He; cbn.
  - rewrite He. reflexivity.
  - unfold fieldAccepts, accepts in Hp. cbn in Hp. rewrite Hp. cbn.
    now apply IH.
Qed.

End ObjectOf.

Lemma combine_keys {A B : Type} (P : A -> B -> Prop) (l : list A) (l' : list B) :
  Forall2 P l l' ->
  List.length l = List.length l' /\ map fst (combine l l') = l.
Proof.
  induction 1 as [| a b l l' _ _ [IHlen IHkeys]]; cbn.
  - now split.
  - split; [now rewrite IHlen | now rewrite IHkeys].
Qed.

Lemma Forall2_map_left {A B C : Type} (f : A -> B) (P : B -> C -> Prop)
  (l : list A) :
  forall l', Forall2 P (map f l) l' -> Forall2 (fun a c => P (f a) c) l l'.
Proof.
  induction l as [| a l IH]; intros l' H; inversion H; subst; constructor; auto.
Qed.

Lemma Forall2_map_right {A B : Type} (f : A -> B) (P : A -> B -> Prop)
  (l : list A) :
  Forall2 P l (map f l) -> Forall (fun a => P a (f a)) l.
Proof.
  induction l as [| a l IH]; cbn; intro H; inversion H; subst; constructor; auto.
Qed.

(** X18. An own property of a record is read as its value. The fields
    are validated in the order of the mapping, each validator on what is
    read for its field; at the first field whose validator fails the
    record validator returns a failure whose value is the whole input and
    whose reason is [Failed at '<fieldName>': <child reason>]. Nothing is
    assumed of the validators of the fields after it: they are not
    called, the answer is the same when they throw. *)
Theorem parseObjectOf_stops_at_first_failure :
  (forall props key x,
     lookup key props = Some x -> field (VObject props) key = x)
  /\ (forall input before key validator after outs f,
        Forall2 (fieldAccepts input) before outs ->
        validator (field input key) = Normal (IsFailure f) ->
        parseObjectOf (before ++ (key, validator) :: after)%list input
        = Normal (failure input (failedAt key (failure_reason f)))).
Proof.
  split.
  - intros props key x H. unfold field. cbn. now rewrite H.
  - intros input before key validator after outs f Hbefore Hf.
    unfold parseObjectOf.
    now rewrite (parseObjectOf_loop_first_failure input before outs Hbefore
                   key validator after f [] Hf).
Qed.

Lemma parseObjectOf_stops_at_first_failure_witness :
  field (VObject [("some-key", VNumber 1)]) "some-key" = VNumber 1
  /\ parseObjectOf [("name", parseString); ("age", parseNumber);
                    ("rest", fun _ => Throw typeError)]
       (VObject [("name", VString "Ellen Ripley"); ("age", VString "25");
                 ("rest", VNull)])
     = Normal (failure
                 (VObject [("name", VString "Ellen Ripley");
                           ("age", VString "25"); ("rest", VNull)])
                 "Failed at 'age': typeof value is string").
Proof.
  split.
  - apply (proj1 parseObjectOf_stops_at_first_failure). reflexivity.
  - apply (proj2 parseObjectOf_stops_at_first_failure
             (VObject [("name", VString "Ellen Ripley"); ("age", VString "25");
                       ("rest", VNull)])
             [("name", parseString)] "age" parseNumber
             [("rest", fun _ => Throw typeError)]
             [VString "Ellen Ripley"]
             (mkFailure "typeof value is string" (VString "25"))).
    + repeat constructor.
    + reflexivity.
Defined.

(** C6, as the code has it. When the field names are distinct, none of
    them is [__proto__], and every declared field is accepted by its
    validator on what the record validator reads for it from the input,
    the record validator succeeds with a record that has exactly the
    declared fields, in the order of the mapping, each carrying the value
    its validator returned; a key of the input that is not declared is
    not in the result. When the validators return what they are given
    unchanged, each declared field of the result is what was read for it
    from the input. *)
Theorem parseObjectOf_builds_declared_fields
  (validators : list (string * AnyParser)) (input : value) (outs : list value) :
  NoDup (map fst validators) ->
  ~ In "__proto__" (map fst validators) ->
  Forall2 (fieldAccepts input) validators outs ->
  let record := combine (map fst validators) outs in
  parseObjectOf validators input = Normal (success (VObject record))
  /\ map fst record = map fst validators
  /\ Forall2 (fun declaration output =>
                lookup (fst declaration) record = Some output)
             validators outs
  /\ (forall key, ~ In key (map fst validators) -> lookup key record = None)
  /\ (outs = map (fun declaration => field input (fst declaration)) validators ->
      forall key, In key (map fst validators) ->
                  get (VObject record) key = field input key).
Proof.
  intros Hnd Hno Hall record.
  destruct (combine_keys _ _ _ Hall) as [Hlen _].
  assert (Hlen' : List.length (map fst validators) = List.length outs)
    by now rewrite length_map.
  assert (Hpresent : Forall2 (fun declaration output =>
                                lookup (fst declaration) record = Some output)
                             validators outs).
  { apply (Forall2_map_left fst
             (fun key output => lookup key record = Some output)).
    now apply lookup_present. }
  split; [| split; [| split; [| split]]].
  - unfold parseObjectOf.
    now rewrite (parseObjectOf_loop_all_accept input validators outs Hall Hno
                   []).
  - apply (combine_keys (fun key output =>
                           lookup key record = Some output)).
    now apply lookup_present.
  - exact Hpresent.
  - intros key Hout. now apply lookup_absent.
  - intros Houts key Hin. cbn.
    apply in_map_iff in Hin. destruct Hin as (d & <- & Hd).
    rewrite Houts in Hpresent.
    apply Forall2_map_right in Hpresent.
    rewrite Forall_forall in Hpresent.
    now rewrite (Hpresent d Hd).
Qed.

Lemma parseObjectOf_builds_declared_fields_witness :
  parseObjectOf [("name", parseString); ("age", voidable parseNumber)]
    (VObject [("extra", VBoolean true); ("name", VString "Ellen Ripley")])
  = Normal (success (VObject [("name", VString "Ellen Ripley");
                              ("age", VUndefined)])).
Proof.
  apply (parseObjectOf_builds_declared_fields
           [("name", parseString); ("age", voidable parseNumber)]
           (VObject [("extra", VBoolean true); ("name", VString "Ellen Ripley")])
           [VString "Ellen Ripley"; VUndefined]).
  - repeat constructor; cbn; intuition discriminate.
  - cbn. intuition discriminate.
  - repeat constructor.
Defined.

(** C6 as stated fails when a field's validator transforms what it
    accepts: the declared field satisfies its validator, and the result
    holds the transformed value, which does not deep-equal the input
    restricted to the declared field. *)
Lemma parseObjectOf_restriction_counterexample :
  let validators :=
    [("publishedAt",
      mapParser parseString (fun _ => ret (success (VNumber 0))))] in
  let input := VObject [("publishedAt", VString "1970-01-01")] in
  fieldAccepts input
    ("publishedAt", mapParser parseString (fun _ => ret (success (VNumber 0))))
    (VNumber 0)
  /\ parseObjectOf validators input
     = Normal (success (VObject [("publishedAt", VNumber 0)]))
  /\ deepEquals (VObject [("publishedAt", VNumber 0)])
                (restrictTo (map fst validators) input) = false.
Proof. repeat split. Qed.

(** C9. The record validator does not look at the kind of its input: a
    failure always comes from the validator of some declared field, and
    when every declared field is accepted it succeeds, whatever the input
    is. A falsy input ([null], [undefined], [false], [0], the empty
    string) has every field read as [undefined], so on [null] a validator
    whose fields all accept [undefined] succeeds; a validator without
    fields succeeds on every input with the empty record. *)
Theorem parseObjectOf_checks_fields_only :
  (forall validators input f,
     parseObjectOf validators input = Normal (IsFailure f) ->
     exists key validator g,
       In (key, validator) validators
       /\ validator (field input key) = Normal (IsFailure g)
       /\ f = keyedFailure input (VString key) g)
  /\ (forall validators input,
        Forall (fun declaration => exists output,
                  fieldAccepts input declaration output) validators ->
        exists record,
          parseObjectOf validators input = Normal (success (VObject record)))
  /\ (forall input key, truthy input = false -> field input key = VUndefined)
  /\ (truthy VNull = false /\ truthy VUndefined = false
      /\ truthy (VBoolean false) = false /\ truthy (VNumber 0) = false
      /\ truthy (VString "") = false)
  /\ (forall validators,
        Forall (fun declaration => exists output,
                  accepts (snd declaration) VUndefined output) validators ->
        exists record,
          parseObjectOf validators VNull = Normal (success (VObject record)))
  /\ (forall input, parseObjectOf [] input = Normal (success (VObject []))).
Proof.
  split; [| split; [| split; [| split; [| split]]]].
  - intros validators input f H.
    now apply (parseObjectOf_loop_failure_origin input validators [] f).
  - intros validators input H.
    now apply (parseObjectOf_loop_succeeds input validators H []).
  - intros input key H. unfold field. now rewrite H.
  - repeat split.
  - intros validators H.
    now apply (parseObjectOf_loop_succeeds VNull validators H []).
  - reflexivity.
Qed.

Lemma parseObjectOf_checks_fields_only_witness :
  (exists key validator g,
      In (key, validator) [("name", parseString)]
      /\ validator (field (VNumber 5) key) = Normal (IsFailure g)
      /\ mkFailure "Failed at 'name': typeof value is undefined" (VNumber 5)
         = keyedFailure (VNumber 5) (VString key) g)
  /\ (exists record,
        parseObjectOf [("length", parseNumber)] (VString "abc")
        = Normal (success (VObject record)))
  /\ field (VNumber 0) "name" = VUndefined
  /\ (exists record,
        parseObjectOf [("name", voidable parseString);
                       ("age", parseUndefined)] VNull
        = Normal (success (VObject record))).
Proof.
  split; [| split; [| split]].
  - apply (proj1 parseObjectOf_checks_fields_only
             [("name", parseString)] (VNumber 5)).
    reflexivity.
  - apply (proj1 (proj2 parseObjectOf_checks_fields_only)).
    repeat constructor. exists (VNumber 3). reflexivity.
  - apply (proj1 (proj2 (proj2 parseObjectOf_checks_fields_only))).
    reflexivity.
  - apply (proj1 (proj2 (proj2 (proj2 (proj2
             parseObjectOf_checks_fields_only))))).
    repeat constructor; exists VUndefined; reflexivity.
Defined.

(* ================================================================== *)
(** ** Homogeneous key-indexed maps *)
(* ================================================================== *)

Section IndexedObjectOf.
Variable parser : AnyParser.

Lemma object_is_truthy (input : value) :
  typeof input = "object" -> input <> VNull -> truthy input = true.
Proof.
  destruct input; cbn; intros Ht Hn; try discriminate Ht; try reflexivity.
  now elim Hn.
Qed.

(** On an object the loop over the input's keys is the loop of a record
    validator that declares each of those keys with the same validator. *)
Lemma parseIndexedObjectOf_loop_as_fields (input : value) :
  truthy input = true ->
  forall keys result,
    parseIndexedObjectOf_loop parser keys input result
    = parseObjectOf_loop (map (fun key => (key, parser)) keys) input result.
Proof.
  intro Htruthy.
  induction keys as [| key rest IH]; intros result; cbn.
  - reflexivity.
  - unfold field. rewrite Htruthy.
    destruct (parser (get input key)) as [[f | s] | e]; cbn;
      [reflexivity | apply IH | reflexivity].
Qed.

Lemma keys_accepted_as_fields (input : value) (keys : list string)
  (outs : list value) :
  truthy input = true ->
  Forall2 (fun key output => accepts parser (get input key) output) keys outs ->
  Forall2 (fieldAccepts input) (map (fun key => (key, parser)) keys) outs.
Proof.
  intro Htruthy.
  induction 1 as [| key o keys' outs' Hk _ IH]; cbn; constructor.
  - unfold fieldAccepts, field. cbn. now rewrite Htruthy.
  - exact IH.
Qed.

Lemma parseIndexedObjectOf_enters_loop (input : value) :
  typeof input = "object" -> input <> VNull ->
  parseIndexedObjectOf parser input
  = parseObjectOf_loop (map (fun key => (key, parser)) (forIn input)) input [].
Proof.
  intros Ht Hn.
  rewrite <- parseIndexedObjectOf_loop_as_fields
    by now apply object_is_truthy.
  unfold parseIndexedObjectOf.
  destruct input; cbn in Ht; try discriminate Ht; try reflexivity.
  now elim Hn.
Qed.


End IndexedObjectOf.


(** C8. On the record [{"__proto__": 5, "a": 1}], as decoding JSON yields
    it, with a validator that accepts everything, the key-indexed map
    validator succeeds with [{"a": 1}]: [__proto__] is a key of the input,
    its value was validated, and the result does not have it. *)
Theorem parseIndexedObjectOf_drops_proto_key :
  let input := VObject [("__proto__", VNumber 5); ("a", VNumber 1)] in
  In "__proto__" (forIn input)
  /\ accepts parseAnyValue (get input "__proto__") (VNumber 5)
  /\ parseIndexedObjectOf parseAnyValue input
     = Normal (success (VObject [("a", VNumber 1)]))
  /\ lookup "__proto__" [("a", VNumber 1)] = None.
Proof.
  cbn. repeat split. now left.
Qed.

(* ================================================================== *)
(** ** Further properties of the library *)
(* ================================================================== *)

Import Behaviour.

(** *** Scalar validators and exact matches *)

(** X1. Each scalar validator accepts exactly the inputs of its category
    and hands back the input itself: strings, numbers and booleans by
    their type tag, [undefined] alone for [parseUndefined], every object
    or array but not [null] for [parseObject], arrays alone for
    [parseArray], and everything for [parseAnyValue]. *)
Theorem scalar_validators_accept_their_category (input output : value) :
  (accepts parseString input output
   <-> output = input /\ typeof input = "string")
  /\ (accepts parseNumber input output
      <-> output = input /\ typeof input = "number")
  /\ (accepts parseBoolean input output
      <-> output = input /\ typeof input = "boolean")
  /\ (accepts parseUndefined input output
      <-> output = input /\ input = VUndefined)
  /\ (accepts parseObject input output
      <-> output = input /\ typeof input = "object" /\ input <> VNull)
  /\ (accepts parseArray input output
      <-> output = input /\ isArray input = true)
  /\ (accepts parseAnyValue input output <-> output = input).
Proof.
  unfold accepts.
  repeat match goal with |- _ /\ _ => split end;
    (split;
     [ destruct input; cbn; intro Hacc; inversion Hacc; subst;
       repeat split; solve [reflexivity | discriminate]
     | intro Hc; destruct input; cbn in *;
       intuition (subst; try discriminate; try reflexivity; try congruence) ]).
Qed.

Lemma strictEquals_literal (a b : value) :
  isLiteral b = true -> (strictEquals a b = true <-> a = b).
Proof.
  destruct b; cbn; try discriminate; intros _; destruct a; cbn;
    split; intro H; try discriminate H.
  - f_equal. now apply Bool.eqb_prop.
  - injection H as ->. apply Bool.eqb_reflx.
  - f_equal. now apply Z.eqb_eq.
  - injection H as ->. apply Z.eqb_refl.
  - f_equal. now apply String.eqb_eq.
  - injection H as ->. apply String.eqb_refl.
Qed.

(** X2. For a literal that is a string, a boolean or a safe integer,
    [parseExactly literal] succeeds on that literal only, with the literal
    as value; on any other input it fails with reason [is not <literal>],
    the literal printed as a template literal prints it, and the input as
    value. *)
Theorem parseExactly_accepts_the_literal_only (literal input : value) :
  isLiteral literal = true ->
  exists text,
    toString literal = Normal text
    /\ (input = literal ->
        parseExactly literal input = Normal (success literal))
    /\ (input <> literal ->
        parseExactly literal input
        = Normal (failure input ("is not " ++ text))).
Proof.
  intro Hlit.
  assert (Htext : exists text, toString literal = Normal text).
  { destruct literal as [| | [|] | n | t | |]; try discriminate Hlit;
      eexists; reflexivity. }
  destruct Htext as [text Htext]. exists text.
  unfold parseExactly. split; [exact Htext | split]; intro H.
  - now rewrite (proj2 (strictEquals_literal input literal Hlit) H).
  - destruct (strictEquals input literal) eqn:E.
    + elim H. now apply (strictEquals_literal input literal Hlit).
    + now rewrite Htext.
Qed.

Lemma parseExactly_accepts_the_literal_only_witness :
  exists text,
    toString (VNumber 1) = Normal text
    /\ (VString "1" = VNumber 1 ->
        parseExactly (VNumber 1) (VString "1") = Normal (success (VNumber 1)))
    /\ (VString "1" <> VNumber 1 ->
        parseExactly (VNumber 1) (VString "1")
        = Normal (failure (VString "1") ("is not " ++ text))).
Proof.
  apply (parseExactly_accepts_the_literal_only (VNumber 1) (VString "1")).
  reflexivity.
Defined.

(** X12. The absence-tolerant wrappers compose: wrapping twice is wrapping
    once, and the two wrappers commute. *)
Theorem optional_voidable_compose (v : AnyParser) (input : value) :
  optional (optional v) input = optional v input
  /\ voidable (voidable v) input = voidable v input
  /\ optional (voidable v) input = voidable (optional v) input.
Proof.
  repeat split; destruct input; reflexivity.
Qed.

(** *** Result combinators *)

Section ResultCombinators.
Context {I A B C : Type}.
Variable f : A -> completion (Result I B).
Variable g : B -> completion (Result I C).

(** X3. [mapSuccess] chains computations on the success side: a success
    is handed to the continuation, a failure passes through untouched,
    continuing with [success] changes nothing, and chaining is
    associative. [mapFailure] mirrors it on the failure side, and both
    are [mapResult] with one branch left as it is. *)
Theorem mapSuccess_chains (result : Result I A) :
  (forall a, mapSuccess (success a) f = f a)
  /\ (forall fl, mapSuccess (IsFailure fl) f = Normal (IsFailure fl))
  /\ mapSuccess result (fun a => ret (success a)) = Normal result
  /\ (chained <- mapSuccess result f ;; mapSuccess chained g)
     = mapSuccess result (fun a => chained <- f a ;; mapSuccess chained g)
  /\ mapFailure result (fun fl => ret (IsFailure fl)) = Normal result
  /\ mapSuccess result f
     = mapResult result f (fun fl => ret (IsFailure fl))
  /\ (forall h : Failure I -> completion (Result I A),
        mapFailure result h = mapResult result (fun a => ret (success a)) h).
Proof.
  repeat split; try (destruct result as [fl | [a]]; reflexivity).
Qed.

Variable p : Parser I A.

(** X4. Transformations compose: transforming twice is transforming once
    with the chained transform. When the failures of the validator are
    about its input, transforming with [success] changes nothing. *)
Theorem mapParser_composes (input : I) :
  mapParser (mapParser p f) g input
  = mapParser p (fun a => mapped <- f a ;; mapSuccess mapped g) input
  /\ ((forall fl, p input = Normal (IsFailure fl) -> failure_value fl = input) ->
      mapParser p (fun a => ret (success a)) input = p input).
Proof.
  unfold mapParser. split.
  - destruct (p input) as [[fl | [a]] | e]; cbn; try reflexivity.
    destruct (f a) as [[fl | [b]] | e]; reflexivity.
  - intro H. destruct (p input) as [[[reason v] | [a]] | e] eqn:E; cbn;
      try reflexivity.
    now rewrite <- (H _ eq_refl).
Qed.

End ResultCombinators.

Lemma mapParser_composes_witness :
  mapParser parseNumber (fun a => ret (success a)) (VString "x")
  = parseNumber (VString "x").
Proof.
  apply (proj2 (mapParser_composes
                  (fun _ : value => Throw typeError
                                    : completion (Result value value))
                  (fun _ : value => Throw typeError
                                    : completion (Result value value))
                  parseNumber (VString "x"))).
  intros fl H. injection H as <-. reflexivity.
Defined.

(** *** What a failure is about *)

Lemma mapParser_failure_value {A B : Type} (child : Parser value A)
  (transform : A -> completion (Result value B)) (input : value)
  (f : Failure value) :
  mapParser child transform input = Normal (IsFailure f) ->
  failure_value f = input.
Proof.
  unfold mapParser.
  destruct (child input) as [[fl | [a]] | e]; cbn; try discriminate.
  - intro H. now inversion H.
  - destruct (transform a) as [[fl | s] | e]; cbn; try discriminate.
    intro H. now inversion H.
Qed.

Lemma parseIndexedObjectOf_failure_value (parser : AnyParser) (input : value)
  (f : Failure value) :
  parseIndexedObjectOf parser input = Normal (IsFailure f) ->
  failure_value f = input.
Proof.
  destruct (String.eqb (typeof input) "object" && negb (isNull input)) eqn:E.
  - assert (Ht : typeof input = "object")
      by (destruct input; cbn in E; try discriminate E; reflexivity).
    assert (Hn : input <> VNull)
      by (destruct input; cbn in E; try discriminate E; discriminate).
    rewrite (parseIndexedObjectOf_enters_loop parser input Ht Hn).
    intro H.
    destruct (parseObjectOf_loop_failure_origin input _ _ _ H)
      as (key & validator & g & _ & _ & ->).
    reflexivity.
  - unfold parseIndexedObjectOf.
    destruct input; cbn in E; try discriminate E; cbn;
      intro H; now inversion H.
Qed.

(** X5. The value of a failure is the input of the validator that
    returned it. This holds of the scalar validators and exact matches,
    and of every record, key-indexed map, sequence and transformation
    validator and every alternation of two or more validators, whatever
    their children report; the absence-tolerant wrappers and the
    alternation of a single validator keep it when their child has it. *)
Theorem failures_report_their_input :
  (reportsInput parseString /\ reportsInput parseNumber
   /\ reportsInput parseBoolean /\ reportsInput parseUndefined
   /\ reportsInput parseObject /\ reportsInput parseArray
   /\ reportsInput parseAnyValue)
  /\ (forall literal, reportsInput (parseExactly literal))
  /\ (forall validators, reportsInput (parseObjectOf validators))
  /\ (forall parser, reportsInput (parseIndexedObjectOf parser))
  /\ (forall validator, reportsInput (parseArrayOf validator))
  /\ (forall (child : AnyParser) transform,
        reportsInput (mapParser child transform))
  /\ (forall parser parsers,
        parsers <> [] -> reportsInput (parseOneOf parser parsers))
  /\ (forall parser,
        reportsInput parser ->
        reportsInput (parseOneOf parser [])
        /\ reportsInput (optional parser)
        /\ reportsInput (voidable parser)).
Proof.
  assert (Hscalar : forall (p : AnyParser),
             (forall input, exists r,
                 p input = Normal r
                 /\ (r = success input \/ r = success VUndefined
                     \/ exists reason, r = failure input reason)) ->
             reportsInput p).
  { intros p Hp input f H. destruct (Hp input) as (r & Hr & Hcases).
    rewrite Hr in H. injection H as ->.
    destruct Hcases as [H | [H | [reason H]]];
      try discriminate H. now inversion H. }
  split; [| split; [| split; [| split; [| split; [| split; [| split]]]]]].
  - repeat split; apply Hscalar; intro input; eexists; (split; [reflexivity |]).
    + unfold failTypeOf.
      destruct (String.eqb (typeof input) "string"); eauto.
    + unfold failTypeOf.
      destruct (String.eqb (typeof input) "number"); eauto.
    + unfold failTypeOf.
      destruct (String.eqb (typeof input) "boolean"); eauto.
    + unfold failTypeOf. destruct (isUndefined input); eauto.
    + unfold failTypeOf.
      destruct (String.eqb (typeof input) "object" && negb (isNull input));
        eauto.
    + destruct (isArray input); eauto.
    + eauto.
  - intros literal input f. unfold parseExactly.
    destruct (strictEquals input literal); [discriminate |].
    destruct (toString literal) as [text | e]; cbn; [| discriminate].
    intro H. now inversion H.
  - intros validators input f H.
    destruct (parseObjectOf_loop_failure_origin input validators [] f H)
      as (key & validator & g & _ & _ & ->).
    reflexivity.
  - intros parser input f. apply parseIndexedObjectOf_failure_value.
  - intros validator input f. apply mapParser_failure_value.
  - intros child transform input f. apply mapParser_failure_value.
  - intros parser parsers Hne input f.
    destruct parsers as [| q rest]; [now elim Hne |].
    unfold parseOneOf. cbn [List.length Nat.eqb].
    destruct (parser input) as [first | e]; cbn [bind]; try discriminate.
    destruct (reduce (parseOneOf_next input) (q :: rest) first)
      as [[fl | s] | e]; cbn; try discriminate.
    destruct (toString input) as [text | e]; cbn; [| discriminate].
    intro H. now inversion H.
  - intros parser Hp. repeat split.
    + exact Hp.
    + intros input f. unfold optional.
      destruct (isNull input); [discriminate | apply Hp].
    + intros input f. unfold voidable.
      destruct (isUndefined input); [discriminate | apply Hp].
Qed.

Lemma failures_report_their_input_witness :
  reportsInput (parseOneOf (fun _ => ret (failure VNull "elsewhere"))
                           [parseNumber])
  /\ reportsInput (optional parseNumber).
Proof.
  split.
  - apply (proj1 (proj2 (proj2 (proj2 (proj2 (proj2 (proj2
             failures_report_their_input))))))).
    discriminate.
  - apply (proj2 (proj2 (proj2 (proj2 (proj2 (proj2 (proj2
             failures_report_their_input)))))) parseNumber).
    apply (proj1 (proj2 (proj1 failures_report_their_input))).
Defined.

(** *** Exceptions *)

Lemma parseObjectOf_loop_never_throws (input : value)
  (validators : list (string * AnyParser)) :
  Forall (fun declaration => neverThrows (snd declaration)) validators ->
  forall result, exists r,
    parseObjectOf_loop validators input result = Normal r.
Proof.
  induction 1 as [| [k p] rest Hp _ IH]; intros result; cbn.
  - eexists. reflexivity.
  - destruct (Hp (field input k)) as [[f | s] Hr]; cbn in Hr; rewrite Hr; cbn.
    + eexists. reflexivity.
    + apply IH.
Qed.

Lemma parseArrayOf_member_never_throws (validator : AnyParser) (whole : value) :
  neverThrows validator ->
  forall members index acc, exists r,
    reduceFrom (parseArrayOf_member validator whole) index members
               (success (VArray acc))
    = Normal r.
Proof.
  intros Hv members.
  induction members as [| m rest IH]; intros index acc; cbn.
  - eexists. reflexivity.
  - destruct (Hv m) as [[f | [v]] Hr]; rewrite Hr; cbn.
    + rewrite parseArrayOf_member_keeps_failure. eexists. reflexivity.
    + apply IH.
Qed.

Lemma parseOneOf_next_never_throws (input : value) (parsers : list AnyParser) :
  Forall neverThrows parsers ->
  forall index first, exists r,
    reduceFrom (parseOneOf_next input) index parsers first = Normal r.
Proof.
  induction 1 as [| p rest Hp _ IH]; intros index first; cbn.
  - eexists. reflexivity.
  - destruct first as [f | s]; cbn.
    + destruct (Hp input) as [r Hr]. rewrite Hr. cbn. apply IH.
    + apply IH.
Qed.

(** X6. The one exception the library raises by itself is the TypeError
    of the template literal in [parseOneOf]. The scalar validators and
    exact matches always return a result, and so do the wrappers, the
    sequence, map, record and transformation validators when the
    validators (and the transform) they are built from do; in particular
    the sequence validator never calls a method on a value that lacks
    it. An alternation of validators that always return a result returns
    a result on every input it can print, and on every input if it has a
    single validator; when two or more validators all fail on an input
    whose printing throws, the alternation throws that exception. *)
Theorem library_throws_only_when_printing :
  (neverThrows parseString /\ neverThrows parseNumber
   /\ neverThrows parseBoolean /\ neverThrows parseUndefined
   /\ neverThrows parseObject /\ neverThrows parseArray
   /\ neverThrows parseAnyValue)
  /\ (forall literal,
        isLiteral literal = true -> neverThrows (parseExactly literal))
  /\ (forall validator,
        neverThrows validator ->
        neverThrows (optional validator) /\ neverThrows (voidable validator)
        /\ neverThrows (parseArrayOf validator)
        /\ neverThrows (parseIndexedObjectOf validator))
  /\ (forall validators,
        Forall (fun declaration => neverThrows (snd declaration)) validators ->
        neverThrows (parseObjectOf validators))
  /\ (forall parser parsers input,
        neverThrows parser -> Forall neverThrows parsers ->
        (parsers = [] \/ exists text, toString input = Normal text) ->
        exists result, parseOneOf parser parsers input = Normal result)
  /\ (forall parser parsers input e,
        parsers <> [] ->
        Forall (fun p => rejects p input) (parser :: parsers) ->
        toString input = Throw e ->
        parseOneOf parser parsers input = Throw e)
  /\ (forall (child : AnyParser) (transform : value -> completion (Result value value)),
        neverThrows child ->
        (forall a, exists r, transform a = Normal r) ->
        neverThrows (mapParser child transform)).
Proof.
  split; [| split; [| split; [| split; [| split; [| split]]]]].
  - repeat split; intro input; eexists; reflexivity.
  - intros literal Hlit input. unfold parseExactly.
    destruct (strictEquals input literal); [eexists; reflexivity |].
    destruct literal as [| | [|] | n | t | |]; try discriminate Hlit;
      eexists; reflexivity.
  - intros validator Hv. repeat split; intro input.
    + unfold optional. destruct (isNull input); [eexists; reflexivity | apply Hv].
    + unfold voidable.
      destruct (isUndefined input); [eexists; reflexivity | apply Hv].
    + unfold parseArrayOf, mapParser, parseArray.
      destruct input; cbn; try (eexists; reflexivity).
      unfold reduce.
      destruct (parseArrayOf_member_never_throws validator (VArray items) Hv
                  items 0 []) as [[f | s] Hr];
        rewrite Hr; cbn; eexists; reflexivity.
    + unfold parseIndexedObjectOf.
      destruct input; cbn; try (eexists; reflexivity).
      * rewrite parseIndexedObjectOf_loop_as_fields by reflexivity.
        apply parseObjectOf_loop_never_throws.
        apply Forall_forall. intros d Hd.
        apply in_map_iff in Hd. destruct Hd as (k & <- & _). exact Hv.
      * rewrite parseIndexedObjectOf_loop_as_fields by reflexivity.
        apply parseObjectOf_loop_never_throws.
        apply Forall_forall. intros d Hd.
        apply in_map_iff in Hd. destruct Hd as (k & <- & _). exact Hv.
  - intros validators Hall input.
    now apply parseObjectOf_loop_never_throws.
  - intros parser parsers input Hp Hall Hprint. unfold parseOneOf.
    destruct parsers as [| q rest]; cbn [List.length Nat.eqb]; [apply Hp |].
    destruct Hprint as [Hnil | [text Htext]]; [discriminate Hnil |].
    destruct (Hp input) as [first Hfirst]. rewrite Hfirst. cbn [bind].
    unfold reduce.
    destruct (parseOneOf_next_never_throws input (q :: rest) Hall 0 first)
      as [[f | s] Hr];
      rewrite Hr; cbn; [rewrite Htext |]; eexists; reflexivity.
  - intros parser parsers input e Hne Hall Hthrow.
    inversion Hall as [| ? ? [g Hp] Hrest]; subst.
    unfold parseOneOf. destruct parsers as [| q rest]; [now elim Hne |].
    cbn [List.length Nat.eqb]. rewrite Hp. cbn [bind].
    destruct (parseOneOf_next_all_reject input (q :: rest) Hrest 0 g) as [f Hf].
    unfold reduce. rewrite Hf. cbn [bind mapFailure]. now rewrite Hthrow.
  - intros child transform Hc Ht input. unfold mapParser.
    destruct (Hc input) as [[f | [a]] Hr]; rewrite Hr; cbn.
    + eexists. reflexivity.
    + destruct (Ht a) as [[f | s] Ha]; rewrite Ha; cbn; eexists; reflexivity.
Qed.

Lemma library_throws_only_when_printing_witness :
  neverThrows (parseExactly (VString "admin"))
  /\ neverThrows (parseArrayOf (optional parseNumber))
  /\ neverThrows (parseObjectOf [("name", parseString)])
  /\ (exists result,
        parseOneOf parseNumber [parseString] (VArray [VNull; VObject []])
        = Normal result)
  /\ parseOneOf parseNumber [parseString] (VObject [("toString", VNumber 1)])
     = Throw typeError
  /\ neverThrows (mapParser parseNumber (fun n => ret (success (VArray [n])))).
Proof.
  pose proof (proj1 library_throws_only_when_printing)
    as (Hstring & Hnumber & _).
  pose proof (proj1 (proj2 (proj2 library_throws_only_when_printing)))
    as Hwrap.
  split; [| split; [| split; [| split; [| split]]]].
  - apply (proj1 (proj2 library_throws_only_when_printing)). reflexivity.
  - apply (proj1 (proj2 (proj2 (Hwrap (optional parseNumber)
                                      (proj1 (Hwrap parseNumber Hnumber)))))).
  - apply (proj1 (proj2 (proj2 (proj2 library_throws_only_when_printing)))).
    repeat constructor. exact Hstring.
  - apply (proj1 (proj2 (proj2 (proj2 (proj2
             library_throws_only_when_printing))))).
    + exact Hnumber.
    + repeat constructor. exact Hstring.
    + right. eexists. reflexivity.
  - apply (proj1 (proj2 (proj2 (proj2 (proj2 (proj2
             library_throws_only_when_printing)))))).
    + discriminate.
    + repeat constructor; eexists; reflexivity.
    + reflexivity.
  - apply (proj2 (proj2 (proj2 (proj2 (proj2 (proj2
             library_throws_only_when_printing)))))).
    + exact Hnumber.
    + intro a. eexists. reflexivity.
Defined.

Lemma parseOneOf_next_propagates_throw (input : value)
  (before : list AnyParser) :
  Forall (fun p => rejects p input) before ->
  forall thrower after e index f0,
    thrower input = Throw e ->
    reduceFrom (parseOneOf_next input) index (before ++ thrower :: after)%list
               (IsFailure f0)
    = Throw e.
Proof.
  induction 1 as [| p rest [g Hp] _ IH]; intros thrower after e index f0 Ht; cbn.
  - rewrite Ht. reflexivity.
  - rewrite Hp. cbn. now apply IH.
Qed.

(** X16. Nothing is caught: when the first validator that does not
    accept (a field's, a member's, an alternative's, or the child or
    transform of a transformation) throws instead of failing, the
    enclosing validator throws the same exception. *)
Theorem thrown_exceptions_propagate (e : value) :
  (forall input before key validator after outs,
     Forall2 (fieldAccepts input) before outs ->
     validator (field input key) = Throw e ->
     parseObjectOf (before ++ (key, validator) :: after)%list input = Throw e)
  /\ (forall validator before member after outs,
        Forall2 (accepts validator) before outs ->
        validator member = Throw e ->
        parseArrayOf validator (VArray (before ++ member :: after)%list)
        = Throw e)
  /\ (forall input parser parsers before thrower after,
        parser :: parsers = (before ++ thrower :: after)%list ->
        Forall (fun p => rejects p input) before ->
        thrower input = Throw e ->
        parseOneOf parser parsers input = Throw e)
  /\ (forall (child : AnyParser) (transform : value -> completion (Result value value)) input,
        (child input = Throw e ->
         mapParser child transform input = Throw e)
        /\ (forall a, accepts child input a -> transform a = Throw e ->
                      mapParser child transform input = Throw e)).
Proof.
  split; [| split; [| split]].
  - intros input before key validator after outs Hbefore He.
    unfold parseObjectOf.
    now apply (parseObjectOf_loop_propagates_throw input before outs).
  - intros validator before member after outs Hbefore He.
    unfold parseArrayOf, mapParser, parseArray. cbn. unfold reduce.
    rewrite (parseArrayOf_member_propagates_throw validator _ before outs
               Hbefore member after e 0 [] He).
    reflexivity.
  - intros input parser parsers before thrower after Hsplit Hbefore He.
    destruct before as [| b before'].
    + cbn in Hsplit. injection Hsplit as <- <-.
      unfold parseOneOf. destruct parsers; cbn; [exact He |].
      now rewrite He.
    + cbn in Hsplit. injection Hsplit as <- ->.
      inversion Hbefore as [| ? ? [g Hb] Hrest]; subst.
      assert (Hlen : Nat.eqb (List.length (before' ++ thrower :: after)%list) 0
                     = false).
      { rewrite List.length_app. cbn. now rewrite Nat.add_succ_r. }
      unfold parseOneOf. rewrite Hlen, Hb. cbn [bind]. unfold reduce.
      match goal with
      | |- context [reduceFrom ?cb ?i ?l ?a] =>
          replace (reduceFrom cb i l a) with
            (Throw e : completion (Result value value))
            by (symmetry; now apply parseOneOf_next_propagates_throw)
      end.
      reflexivity.
  - intros child transform input. unfold mapParser. split.
    + intros ->. reflexivity.
    + intros a Ha Ht. unfold accepts in Ha. rewrite Ha. cbn. now rewrite Ht.
Qed.

Lemma thrown_exceptions_propagate_witness :
  parseObjectOf [("name", parseString); ("age", fun _ => Throw typeError);
                 ("rest", parseNumber)]
    (VObject [("name", VString "Ellen Ripley")])
  = Throw typeError
  /\ parseArrayOf (fun v => if isNull v then Throw typeError else parseNumber v)
       (VArray [VNumber 1; VNull; VNumber 3])
     = Throw typeError
  /\ parseOneOf parseNumber [fun _ => Throw typeError; parseString]
       (VString "a")
     = Throw typeError
  /\ mapParser parseNumber
       (fun _ => Throw typeError : completion (Result value value)) (VNumber 1)
     = Throw typeError.
Proof.
  split; [| split; [| split]].
  - apply (proj1 (thrown_exceptions_propagate typeError)
             (VObject [("name", VString "Ellen Ripley")])
             [("name", parseString)] "age" (fun _ => Throw typeError)
             [("rest", parseNumber)] [VString "Ellen Ripley"]).
    + repeat constructor.
    + reflexivity.
  - apply (proj1 (proj2 (thrown_exceptions_propagate typeError))
             (fun v => if isNull v then Throw typeError else parseNumber v)
             [VNumber 1] VNull [VNumber 3] [VNumber 1]).
    + repeat constructor.
    + reflexivity.
  - apply (proj1 (proj2 (proj2 (thrown_exceptions_propagate typeError)))
             (VString "a") parseNumber
             [fun _ => Throw typeError; parseString]
             [parseNumber] (fun _ => Throw typeError) [parseString]).
    + reflexivity.
    + repeat constructor.
      exists (mkFailure "typeof value is string" (VString "a")). reflexivity.
    + reflexivity.
  - apply (proj2 (proj2 (proj2 (proj2 (thrown_exceptions_propagate typeError)))
                   parseNumber (fun _ => Throw typeError) (VNumber 1))
             (VNumber 1)); reflexivity.
Defined.

(** *** What an answer tells about the children *)

Lemma parseOneOf_next_inversion (input : value) (parsers : list AnyParser) :
  forall index f0 r,
    reduceFrom (parseOneOf_next input) index parsers (IsFailure f0) = Normal r ->
    (exists f, r = IsFailure f /\ Forall (fun p => rejects p input) parsers)
    \/ (exists s before chosen after,
           r = IsSuccess s
           /\ parsers = (before ++ chosen :: after)%list
           /\ Forall (fun p => rejects p input) before
           /\ chosen input = Normal (IsSuccess s)).
Proof.
  induction parsers as [| p rest IH]; intros index f0 r; cbn.
  - intro H. injection H as <-. left. exists f0. now split.
  - destruct (p input) as [[g | s] | e] eqn:Hp; cbn; try discriminate.
    + intro H. destruct (IH _ _ _ H) as [(f & -> & Hall) | Hsucc].
      * left. exists f. split; [reflexivity |].
        constructor; [now exists g | exact Hall].
      * destruct Hsucc as (s & before & chosen & after & -> & -> & Hb & Hc).
        right. exists s, (p :: before), chosen, after.
        repeat split; try assumption.
        constructor; [now exists g | exact Hb].
    + rewrite parseOneOf_next_keeps_success. intro H. injection H as <-.
      right. exists s, [], p, rest. repeat split; [constructor | exact Hp].
Qed.

(** X7. What an alternation's answer tells: when it fails, every one of
    its validators was called and failed; when it succeeds, the success
    is that of the first validator that did not fail, all those before it
    having failed. *)
Theorem parseOneOf_inversion (parser : AnyParser) (parsers : list AnyParser)
  (input : value) :
  (forall f,
     parseOneOf parser parsers input = Normal (IsFailure f) ->
     Forall (fun p => rejects p input) (parser :: parsers))
  /\ (forall s,
        parseOneOf parser parsers input = Normal (IsSuccess s) ->
        exists before chosen after,
          parser :: parsers = (before ++ chosen :: after)%list
          /\ Forall (fun p => rejects p input) before
          /\ chosen input = Normal (IsSuccess s)).
Proof.
  unfold parseOneOf.
  destruct parsers as [| q rest]; cbn [List.length Nat.eqb].
  - split.
    + intros f H. constructor; [now exists f | constructor].
    + intros s H. exists [], parser, []. repeat split; [constructor | exact H].
  - destruct (parser input) as [[g | s0] | e] eqn:Hp; cbn [bind].
    + unfold reduce.
      destruct (reduceFrom (parseOneOf_next input) 0 (q :: rest) (IsFailure g))
        as [r | e] eqn:Hr; cbn [bind].
      * destruct (parseOneOf_next_inversion input _ _ _ _ Hr)
          as [(f' & -> & Hall) | (s' & before & chosen & after & -> & Hsplit & Hb & Hc)];
          cbn; split; try discriminate.
        -- intros f _. constructor; [now exists g | exact Hall].
        -- intros s H. destruct (toString input); discriminate H.
        -- intros s H. injection H as <-.
           exists (parser :: before), chosen, after.
           repeat split.
           ++ cbn. now rewrite Hsplit.
           ++ constructor; [now exists g | exact Hb].
           ++ exact Hc.
      * split; discriminate.
    + unfold reduce. rewrite parseOneOf_next_keeps_success. cbn.
      split; [discriminate |].
      intros s H. injection H as <-.
      exists [], parser, (q :: rest). repeat split; [constructor | exact Hp].
    + split; discriminate.
Qed.

Lemma parseOneOf_inversion_witness :
  Forall (fun p => rejects p VNull) [parseNumber; parseString]
  /\ exists before chosen after,
       [parseNumber; parseString] = (before ++ chosen :: after)%list
       /\ Forall (fun p => rejects p (VString "a")) before
       /\ chosen (VString "a") = Normal (IsSuccess (mkSuccess (VString "a"))).
Proof.
  split.
  - apply (proj1 (parseOneOf_inversion parseNumber [parseString] VNull)
             (mkFailure "'null' did not match any of 2 validators" VNull)).
    reflexivity.
  - apply (proj2 (parseOneOf_inversion parseNumber [parseString] (VString "a"))
             (mkSuccess (VString "a"))).
    reflexivity.
Defined.

Lemma parseArrayOf_member_inversion (validator : AnyParser) (whole : value)
  (members : list value) :
  forall index acc r,
    reduceFrom (parseArrayOf_member validator whole) index members
               (success (VArray acc)) = Normal r ->
    (exists outs,
        r = success (VArray (acc ++ outs)%list)
        /\ Forall2 (accepts validator) members outs)
    \/ (exists before member after outs g f,
           r = IsFailure f
           /\ members = (before ++ member :: after)%list
           /\ Forall2 (accepts validator) before outs
           /\ validator member = Normal (IsFailure g)).
Proof.
  induction members as [| m rest IH]; intros index acc r; cbn.
  - intro H. injection H as <-. left. exists []. rewrite app_nil_r.
    split; [reflexivity | constructor].
  - destruct (validator m) as [[g | [v]] | e] eqn:Hm; cbn; try discriminate.
    + rewrite parseArrayOf_member_keeps_failure. intro H. injection H as <-.
      right. exists [], m, rest, [], g. eexists.
      repeat split; [constructor | exact Hm].
    + intro H. destruct (IH _ _ _ H) as [(outs & -> & Hall) | Hfail].
      * left. exists (v :: outs). rewrite <- app_assoc.
        split; [reflexivity | now constructor].
      * destruct Hfail
          as (before & member & after & outs & g & f & -> & -> & Hb & Hg).
        right. exists (m :: before), member, after, (v :: outs), g, f.
        repeat split; [now constructor | exact Hg].
Qed.

(** X8. What a sequence validator's answer tells: a success means the
    input is a sequence and the output is the sequence, of the same
    length, of what the validator returned for each member in turn; a
    failure means the input is not a sequence or the validator failed on
    a member after accepting all those before it. *)
Theorem parseArrayOf_inversion (validator : AnyParser) (input : value) :
  (forall output,
     accepts (parseArrayOf validator) input output ->
     exists members outs,
       input = VArray members /\ output = VArray outs
       /\ Forall2 (accepts validator) members outs
       /\ List.length outs = List.length members)
  /\ (forall f,
        parseArrayOf validator input = Normal (IsFailure f) ->
        isArray input = false
        \/ exists before member after outs g,
             input = VArray (before ++ member :: after)%list
             /\ Forall2 (accepts validator) before outs
             /\ validator member = Normal (IsFailure g)).
Proof.
  unfold accepts, parseArrayOf, mapParser, parseArray.
  destruct input; cbn; try (split; [discriminate | intros; now left]).
  unfold reduce.
  destruct (reduceFrom (parseArrayOf_member validator (VArray items)) 0 items
              (success (VArray []))) as [r | e] eqn:Hr; cbn;
    [| split; discriminate].
  destruct (parseArrayOf_member_inversion validator _ items 0 [] r Hr)
    as [(outs & -> & Hall)
       | (before & member & after & outs & g & f' & -> & Hs & Hb & Hg)];
    cbn; split; try discriminate.
  - intros output H. injection H as <-.
    exists items, outs. repeat split; try assumption.
    symmetry. now apply (combine_keys _ _ _ Hall).
  - intros f _. right. exists before, member, after, outs, g.
    repeat split; try assumption. now rewrite Hs.
Qed.

Lemma parseArrayOf_inversion_witness :
  (exists members outs,
      VArray [VNumber 1; VNull] = VArray members
      /\ VArray [VNumber 1; VNull] = VArray outs
      /\ Forall2 (accepts (optional parseNumber)) members outs
      /\ List.length outs = List.length members)
  /\ (isArray (VArray [VNumber 1; VString "2"]) = false
      \/ exists before member after outs g,
           VArray [VNumber 1; VString "2"]
           = VArray (before ++ member :: after)%list
           /\ Forall2 (accepts parseNumber) before outs
           /\ parseNumber member = Normal (IsFailure g)).
Proof.
  split.
  - apply (proj1 (parseArrayOf_inversion (optional parseNumber)
                    (VArray [VNumber 1; VNull]))).
    reflexivity.
  - apply (proj2 (parseArrayOf_inversion parseNumber
                    (VArray [VNumber 1; VString "2"]))
             (mkFailure "Failed at '1': typeof value is string"
                        (VArray [VNumber 1; VString "2"]))).
    reflexivity.
Defined.

Lemma parseObjectOf_loop_success_inversion (input : value)
  (validators : list (string * AnyParser)) :
  forall result s,
    parseObjectOf_loop validators input result = Normal (IsSuccess s) ->
    exists outs, Forall2 (fieldAccepts input) validators outs.
Proof.
  induction validators as [| [k p] rest IH]; intros result s; cbn.
  - intros _. exists []. constructor.
  - destruct (p (field input k)) as [[g | [v]] | e] eqn:Hp; cbn;
      try discriminate.
    intro H. destruct (IH _ _ H) as [outs Houts].
    exists (v :: outs). constructor; [exact Hp | exact Houts].
Qed.



(** *** Records: what is read, and validating again *)

Lemma parseObjectOf_loop_verdict (validators : list (string * AnyParser))
  (input1 input2 : value) :
  (forall key, In key (map fst validators) ->
               field input1 key = field input2 key) ->
  forall result,
    verdict (parseObjectOf_loop validators input1 result)
    = verdict (parseObjectOf_loop validators input2 result).
Proof.
  induction validators as [| [k p] rest IH]; intros Hsame result; cbn.
  - reflexivity.
  - rewrite (Hsame k) by now left.
    destruct (p (field input2 k)) as [[g | s] | e]; cbn; try reflexivity.
    apply IH. intros key Hin. apply Hsame. now right.
Qed.

Lemma declared_of_In (key : string) (fields : list string) :
  In key fields -> declared key fields = true.
Proof.
  intro Hin. unfold declared. apply existsb_exists.
  exists key. split; [exact Hin | apply String.eqb_refl].
Qed.

Lemma lookup_restricted (fields : list string) (key : string)
  (props : list (string * value)) :
  declared key fields = true ->
  lookup key (filter (fun kv => declared (fst kv) fields) props)
  = lookup key props.
Proof.
  intro Hd. induction props as [| [k x] rest IH]; cbn.
  - reflexivity.
  - destruct (declared k fields) eqn:Hk; cbn.
    + now rewrite IH.
    + destruct (String.eqb_spec k key) as [-> | _]; [congruence | exact IH].
Qed.

(** X10. A record validator looks at the declared fields of its input
    and at nothing else: on two inputs that agree on every declared field
    it gives the same answer, the value carried by a failure apart. In
    particular the undeclared keys of a record can be dropped beforehand
    without changing the answer. *)
Theorem parseObjectOf_reads_declared_fields_only
  (validators : list (string * AnyParser)) :
  (forall input1 input2,
     (forall key, In key (map fst validators) ->
                  field input1 key = field input2 key) ->
     verdict (parseObjectOf validators input1)
     = verdict (parseObjectOf validators input2))
  /\ (forall props,
        verdict (parseObjectOf validators (VObject props))
        = verdict (parseObjectOf validators
                     (restrictTo (map fst validators) (VObject props)))).
Proof.
  split.
  - intros input1 input2 Hsame. unfold parseObjectOf.
    now apply parseObjectOf_loop_verdict.
  - intros props. unfold parseObjectOf.
    apply parseObjectOf_loop_verdict.
    intros key Hin. unfold field. cbn.
    now rewrite lookup_restricted by now apply declared_of_In.
Qed.

Lemma parseObjectOf_reads_declared_fields_only_witness :
  verdict (parseObjectOf [("name", parseString)]
             (VObject [("name", VNumber 1); ("age", VNumber 2)]))
  = verdict (parseObjectOf [("name", parseString)]
               (VObject [("name", VNumber 1)])).
Proof.
  apply (proj1 (parseObjectOf_reads_declared_fields_only
                  [("name", parseString)])).
  intros key [<- | []]. reflexivity.
Defined.

Lemma strictEquals_reflexive_on_match (a b : value) :
  strictEquals a b = true -> strictEquals b b = true.
Proof.
  destruct a, b; cbn; try discriminate; intros _.
  - reflexivity.
  - reflexivity.
  - apply Bool.eqb_reflx.
  - apply Z.eqb_refl.
  - apply String.eqb_refl.
Qed.

Lemma members_accepted_again (validator : AnyParser) (members outs : list value) :
  stable validator ->
  Forall2 (accepts validator) members outs ->
  Forall2 (accepts validator) outs outs.
Proof.
  intro Hs. induction 1 as [| m o members' outs' Hm _ IH]; constructor.
  - exact (Hs m o Hm).
  - exact IH.
Qed.

Lemma fields_accepted_again (validators : list (string * AnyParser))
  (input : value) (record : list (string * value)) (outs : list value) :
  Forall (fun declaration => stable (snd declaration)) validators ->
  Forall2 (fieldAccepts input) validators outs ->
  Forall2 (fun declaration output =>
             lookup (fst declaration) record = Some output) validators outs ->
  Forall2 (fieldAccepts (VObject record)) validators outs.
Proof.
  intros Hstable Hacc. revert Hstable.
  induction Hacc as [| d o validators' outs' Hd _ IH];
    intros Hstable Hlook; constructor.
  - inversion Hstable as [| ? ? Hs _]; subst.
    inversion Hlook as [| ? ? ? ? Hl _]; subst.
    unfold fieldAccepts, field. cbn. rewrite Hl.
    exact (Hs _ _ Hd).
  - inversion Hstable; subst. inversion Hlook; subst. now apply IH.
Qed.

(** X11. Validated values validate again: what the scalar validators and
    exact matches accept they accept again unchanged, and the wrappers,
    the sequence validator and the record validator (field names
    distinct, none of them [__proto__]) inherit this from their children.
    So the output of such a validator can be fed back to it and comes
    back as it is. *)
Theorem validated_values_validate_again :
  (stable parseString /\ stable parseNumber /\ stable parseBoolean
   /\ stable parseUndefined /\ stable parseObject /\ stable parseArray
   /\ stable parseAnyValue)
  /\ (forall literal, stable (parseExactly literal))
  /\ (forall validator,
        stable validator ->
        stable (optional validator) /\ stable (voidable validator)
        /\ stable (parseArrayOf validator))
  /\ (forall validators,
        NoDup (map fst validators) ->
        ~ In "__proto__" (map fst validators) ->
        Forall (fun declaration => stable (snd declaration)) validators ->
        stable (parseObjectOf validators)).
Proof.
  split; [| split; [| split]].
  - unfold stable, accepts.
    repeat split; intros input output H; destruct input; cbn in H;
      inversion H; subst; reflexivity.
  - intros literal input output. unfold accepts, parseExactly.
    destruct (strictEquals input literal) eqn:E.
    + intro H. injection H as <-.
      now rewrite (strictEquals_reflexive_on_match input literal E).
    + destruct (toString literal); discriminate.
  - intros validator Hs. repeat split; intros input output.
    + unfold accepts, optional. destruct (isNull input).
      * intro H. injection H as <-. reflexivity.
      * intro H. destruct (isNull output) eqn:E.
        -- destruct output; try discriminate E. reflexivity.
        -- exact (Hs _ _ H).
    + unfold accepts, voidable. destruct (isUndefined input).
      * intro H. injection H as <-. reflexivity.
      * intro H. destruct (isUndefined output) eqn:E.
        -- destruct output; try discriminate E. reflexivity.
        -- exact (Hs _ _ H).
    + intro H.
      assert (Hinv : exists members outs,
                 output = VArray outs
                 /\ Forall2 (accepts validator) members outs).
      { unfold accepts, parseArrayOf, mapParser, parseArray in H.
        destruct input; cbn in H; try discriminate H.
        unfold reduce in H.
        destruct (reduceFrom (parseArrayOf_member validator (VArray items)) 0
                    items (success (VArray []))) as [r | e] eqn:Hr;
          cbn in H; [| discriminate H].
        destruct (parseArrayOf_member_inversion validator _ items 0 [] r Hr)
          as [(outs & -> & Hall) | (? & ? & ? & ? & ? & f' & -> & _)];
          cbn in H; [| discriminate H].
        injection H as <-. now exists items, outs. }
      destruct Hinv as (members & outs & -> & Hall).
      unfold accepts, parseArrayOf, mapParser, parseArray. cbn. unfold reduce.
      now rewrite (parseArrayOf_member_all_accept validator _ outs outs
                     (members_accepted_again validator members outs Hs Hall)
                     0 []).
  - intros validators Hnd Hno Hstable input output H.
    unfold accepts, parseObjectOf in H.
    destruct (parseObjectOf_loop_success_inversion input validators [] _ H)
      as [outs Houts].
    rewrite (parseObjectOf_loop_all_accept input validators outs Houts Hno []
               Hnd) in H.
    injection H as <-. cbn [app].
    unfold accepts, parseObjectOf.
    rewrite (parseObjectOf_loop_all_accept
               (VObject (combine (map fst validators) outs)) validators outs);
      [reflexivity | | exact Hno | exact Hnd].
    apply (fields_accepted_again validators input); try assumption.
    apply (Forall2_map_left fst
             (fun key output =>
                lookup key (combine (map fst validators) outs) = Some output)).
    apply lookup_present; [exact Hnd |].
    rewrite length_map. now apply (combine_keys _ _ _ Houts).
Qed.

Lemma validated_values_validate_again_witness :
  stable (parseObjectOf [("name", parseString);
                         ("tags", parseArrayOf (optional parseString))]).
Proof.
  pose proof (proj1 validated_values_validate_again) as (Hstring & _).
  pose proof (proj1 (proj2 (proj2 validated_values_validate_again))) as Hwrap.
  apply (proj2 (proj2 (proj2 validated_values_validate_again))).
  - repeat constructor; cbn; intuition discriminate.
  - cbn. intuition discriminate.
  - repeat constructor; cbn.
    + exact Hstring.
    + apply (Hwrap (optional parseString)). apply (Hwrap parseString Hstring).
Defined.

(** *** Key-indexed maps over records and arrays *)


Lemma indexOfKey_natToString (n : nat) : indexOfKey (natToString n) = Some n.
Proof.
  unfold indexOfKey, natToString.
  assert (Hnn : Nat.to_uint n <> Nil).
  { rewrite <- (DecimalNat.Unsigned.of_to n) at 1.
    rewrite DecimalNat.Unsigned.to_of. apply DecimalFacts.unorm_nonnil. }
  rewrite (NilZero.usu _ Hnn).
  rewrite DecimalNat.Unsigned.of_to.
  now rewrite String.eqb_refl.
Qed.

Lemma natToString_injective (a b : nat) :
  natToString a = natToString b -> a = b.
Proof.
  intro H. pose proof (indexOfKey_natToString a) as Ha.
  rewrite H, indexOfKey_natToString in Ha. now injection Ha.
Qed.

Lemma get_array_member (items : list value) (i : nat) :
  get (VArray items) (natToString i) = nth i items VUndefined.
Proof.
  cbn. destruct (String.eqb_spec (natToString i) "length") as [E | _].
  - pose proof (indexOfKey_natToString i) as H. rewrite E in H.
    discriminate H.
  - now rewrite indexOfKey_natToString.
Qed.

Lemma nth_over_seq (items prefix : list value) :
  map (fun i => nth i (prefix ++ items)%list VUndefined)
      (seq (List.length prefix) (List.length items))
  = items.
Proof.
  revert prefix. induction items as [| x rest IH]; intros prefix; cbn.
  - reflexivity.
  - rewrite nth_middle. f_equal.
    specialize (IH (prefix ++ [x])%list).
    rewrite <- app_assoc, length_app, Nat.add_1_r in IH. exact IH.
Qed.

Lemma array_keys_read_members (items : list value) :
  map (get (VArray items)) (forIn (VArray items)) = items.
Proof.
  cbn [forIn]. rewrite map_map.
  rewrite (map_ext _ (fun i => nth i items VUndefined))
    by (intro i; apply get_array_member).
  exact (nth_over_seq items []).
Qed.

Lemma index_keys_distinct (indices : list nat) :
  NoDup indices -> NoDup (map natToString indices).
Proof.
  induction 1 as [| i rest Hi _ IH]; cbn; constructor.
  - intro Hin. apply in_map_iff in Hin. destruct Hin as (j & Hj & Hin).
    apply natToString_injective in Hj. now subst.
  - exact IH.
Qed.

Lemma index_keys_without_proto (indices : list nat) :
  ~ In "__proto__" (map natToString indices).
Proof.
  intro Hin. apply in_map_iff in Hin. destruct Hin as (i & Hi & _).
  pose proof (indexOfKey_natToString i) as H. rewrite Hi in H.
  discriminate H.
Qed.

Lemma array_keys_distinct (items : list value) : NoDup (forIn (VArray items)).
Proof.
  cbn [forIn]. apply index_keys_distinct. apply seq_NoDup.
Qed.

(** X13. A key-indexed map validator takes an array for a map from its
    indices: when the validator accepts every member, the answer is not
    an array but a record whose keys are the indices ["0"], ["1"], ... in
    order, each carrying the validated member. *)
Theorem parseIndexedObjectOf_turns_arrays_into_records (parser : AnyParser)
  (items outs : list value) :
  Forall2 (accepts parser) items outs ->
  parseIndexedObjectOf parser (VArray items)
  = Normal (success
              (VObject (combine (map natToString (seq 0 (List.length items)))
                                outs))).
Proof.
  intro Hall.
  rewrite (parseIndexedObjectOf_enters_loop parser (VArray items))
    by (reflexivity || discriminate).
  assert (Hkeys : Forall2 (fun key output =>
                             accepts parser (get (VArray items) key) output)
                          (forIn (VArray items)) outs).
  { apply (Forall2_map_left (get (VArray items)) (accepts parser)).
    now rewrite array_keys_read_members. }
  rewrite (parseObjectOf_loop_all_accept (VArray items) _ outs
             (keys_accepted_as_fields parser (VArray items) _ outs eq_refl Hkeys)).
  - cbn [app]. rewrite map_map. cbn [fst]. now rewrite map_id.
  - rewrite map_map. cbn [fst]. rewrite map_id.
    apply index_keys_without_proto.
  - cbn [map app]. rewrite map_map. cbn [fst]. rewrite map_id.
    apply array_keys_distinct.
Qed.

Lemma parseIndexedObjectOf_turns_arrays_into_records_witness :
  parseIndexedObjectOf parseNumber (VArray [VNumber 4; VNumber 5])
  = Normal (success (VObject [("0", VNumber 4); ("1", VNumber 5)])).
Proof.
  apply (parseIndexedObjectOf_turns_arrays_into_records parseNumber
           [VNumber 4; VNumber 5] [VNumber 4; VNumber 5]).
  repeat constructor.
Defined.



(** *** Paths *)

(** X15. The reason of a failure records the whole path to it: when a
    validator wrapped in a chain of records fails on what the chain reads
    from the input, the outermost record fails with the reason prefixed
    by one [Failed at '<key>': ] per level, outermost key first, and with
    the outermost input as value. *)
Theorem nested_failure_path (keys : list string) (leaf : AnyParser) :
  forall input f,
    leaf (dig input keys) = Normal (IsFailure f) ->
    exists f',
      nested keys leaf input = Normal (IsFailure f')
      /\ failure_reason f' = fold_right failedAt (failure_reason f) keys
      /\ (keys <> [] -> failure_value f' = input).
Proof.
  induction keys as [| key rest IH]; intros input f Hleaf; cbn in *.
  - exists f. repeat split; [exact Hleaf | intro H; now elim H].
  - destruct (IH (field input key) f Hleaf) as (f'' & Hinner & Hreason & _).
    unfold parseObjectOf. cbn. rewrite Hinner. cbn.
    eexists. split; [reflexivity |]. cbn. split.
    + unfold failedAt. now rewrite Hreason.
    + reflexivity.
Qed.

Lemma nested_failure_path_witness :
  exists f',
    nested ["child"; "id"] parseNumber
      (VObject [("name", VString "Invalid");
                ("child", VObject [("id", VString "not-number")])])
    = Normal (IsFailure f')
    /\ failure_reason f'
       = "Failed at 'child': Failed at 'id': typeof value is string"
    /\ (["child"; "id"] <> [] ->
        failure_value f'
        = VObject [("name", VString "Invalid");
                   ("child", VObject [("id", VString "not-number")])]).
Proof.
  apply (nested_failure_path ["child"; "id"] parseNumber
           (VObject [("name", VString "Invalid");
                     ("child", VObject [("id", VString "not-number")])])
           (mkFailure "typeof value is string" (VString "not-number"))).
  reflexivity.
Defined.
